(** * Translation gateway (translator/app.py): request handlers

    A shallow embedding of the three Flask handlers of [translator/app.py]
    ([translate_text], [translate_batch], [voice_translate]) together with
    the Python values they manipulate, and the properties of the handlers
    that the specification states.

    The handlers talk to two external libraries: [googletrans]
    ([translator.translate]) and [gTTS] (constructor and [save]).  Their
    behaviour is not part of the repository, so the development is
    parametric in it: a section fixes an arbitrary type of worlds and
    arbitrary service functions that may succeed or raise and may change the
    world.  Every call is also appended to a trace, which is what "no
    external call is made" and "synthesis is attempted" are stated on. *)

From Stdlib Require Import Floats.SpecFloat.
From stdpp Require Import base option list gmap strings.

Set Default Proof Using "Type".

(** ** Python strings *)

Module PyStr.

(** A Python [str] is a sequence of Unicode code points; [len] counts code
    points and not bytes. *)
Definition codepoint := N.
Definition str := list codepoint.

(** An ASCII literal of the source, as a [str]. *)
Fixpoint lit (s : string) : str :=
  match s with
  | EmptyString => []
  | String a s' => Ascii.N_of_ascii a :: lit s'
  end.

(** The characters [str.strip()] removes when called without argument:
    those for which [str.isspace()] holds (CPython's
    [_PyUnicode_IsWhitespace]). *)
Definition isspace (c : codepoint) : bool :=
  ((0x09 <=? c) && (c <=? 0x0D)          (* \t \n \v \f \r *)
   || (0x1C <=? c) && (c <=? 0x20)       (* FS GS RS US and the space *)
   || (c =? 0x85) || (c =? 0xA0) || (c =? 0x1680)
   || (0x2000 <=? c) && (c <=? 0x200A)
   || (c =? 0x2028) || (c =? 0x2029) || (c =? 0x202F)
   || (c =? 0x205F) || (c =? 0x3000))%N.

Fixpoint lstrip (s : str) : str :=
  match s with
  | [] => []
  | c :: s' => if isspace c then lstrip s' else s
  end.

Definition rstrip (s : str) : str := reverse (lstrip (reverse s)).

(** [s.strip()] *)
Definition strip (s : str) : str := rstrip (lstrip s).

(** [len(s)] *)
Definition len (s : str) : nat := length s.

(** Truth value of a [str]: the empty string is false. *)
Definition truthy (s : str) : bool :=
  match s with [] => false | _ :: _ => true end.

End PyStr.

Export PyStr.

(** ** JSON values as [request.get_json()] returns them *)

#[local] Unset Elimination Schemes.
Inductive json : Type :=
  | JNone                               (* null *)
  | JBool (b : bool)
  | JInt (z : Z)
  | JFloat (f : spec_float)
  | JStr (s : str)
  | JList (l : list json)
  | JDict (m : gmap str json).
#[local] Set Elimination Schemes.

(** [type(v).__name__], as it appears in the message of an
    [AttributeError]. *)
Definition type_name (v : json) : string :=
  match v with
  | JNone => "NoneType"
  | JBool _ => "bool"
  | JInt _ => "int"
  | JFloat _ => "float"
  | JStr _ => "str"
  | JList _ => "list"
  | JDict _ => "dict"
  end.

(** Truth value of a Python object ([not v] is its negation). *)
Definition py_truthy (v : json) : bool :=
  match v with
  | JNone => false
  | JBool b => b
  | JInt z => negb (z =? 0)%Z
  | JFloat (S754_zero _) => false
  | JFloat _ => true
  | JStr s => truthy s
  | JList l => match l with [] => false | _ :: _ => true end
  | JDict m => negb (size m =? 0)%nat
  end.

(** [isinstance(v, list)] *)
Definition isinstance_list (v : json) : bool :=
  match v with JList _ => true | _ => false end.

Definition is_str (v : json) : bool :=
  match v with JStr _ => true | _ => false end.

(** ** Exceptions and results *)

(** An exception caught by [except Exception]: its class and what
    [str(e)] gives.  [KeyboardInterrupt] and [SystemExit] do not derive from
    [Exception] and are not modelled. *)
Record exn := { exn_class : string; exn_str : str }.

Definition AttributeError (v : json) (attr : string) : exn :=
  {| exn_class := "AttributeError";
     exn_str := lit ("'" +:+ type_name v +:+ "' object has no attribute '"
                       +:+ attr +:+ "'") |}.

Inductive result (A : Type) : Type :=
  | Ok (a : A)
  | Raise (e : exn).
Arguments Ok {A} a.
Arguments Raise {A} e.

(** ** The handler monad: state passing with exceptions *)

Module Handler.

Definition M (S A : Type) : Type := S -> result A * S.

Definition ret {S A} (a : A) : M S A := fun st => (Ok a, st).

Definition raise {S A} (e : exn) : M S A := fun st => (Raise e, st).

Definition bind {S A B} (m : M S A) (k : A -> M S B) : M S B :=
  fun st =>
    match m st with
    | (Ok a, st') => k a st'
    | (Raise e, st') => (Raise e, st')
    end.

(** [try: m  except Exception as e: h e].  What [m] did to the state
    before raising stays done. *)
Definition try_except {S A} (m : M S A) (h : exn -> M S A) : M S A :=
  fun st =>
    match m st with
    | (Ok a, st') => (Ok a, st')
    | (Raise e, st') => h e st'
    end.

End Handler.

Export Handler.

Declare Scope handler_scope.
Delimit Scope handler_scope with handler.
Notation "x <- m ;; k" := (bind m (fun x => k))
  (at level 100, m at next level, right associativity) : handler_scope.
Notation "m ;;; k" := (bind m (fun _ => k))
  (at level 100, right associativity) : handler_scope.
Open Scope handler_scope.

(** ** Responses *)

(** A view returns the pair [jsonify(d), status]. *)
Record response := { body : json; status : Z }.

Definition jsonify (d : gmap str json) : json := JDict d.

(** [os.path.join(a, b)] on a POSIX system, for two components. *)
Definition os_path_join (a b : str) : str :=
  match b with
  | 47%N :: _ => b
  | _ =>
      match last a with
      | None => b
      | Some 47%N => a ++ b
      | Some _ => a ++ 47%N :: b
      end
  end.

(** What [translator.translate] returns: an object with a [text]
    attribute. *)
Record Translated := { text : str }.

(** ** The handlers *)

Section Gateway.

(** The world outside the process (the two remote services, the files under
    [static/]) and the object a [gTTS(...)] call constructs. *)
Variable W : Type.
Variable TTS : Type.

(** [translator.translate(text, src=.., dest=..)] *)
Variable translator_translate : str -> str -> str -> W -> result Translated * W.
(** [gTTS(text=.., lang=.., slow=..)] *)
Variable gTTS : str -> str -> bool -> W -> result TTS * W.
(** [tts.save(path)] *)
Variable gTTS_save : TTS -> str -> W -> result unit * W.

(** [AUDIO_FOLDER = os.path.join(os.path.dirname(__file__), 'static')] *)
Variable AUDIO_FOLDER : str.

(** One entry of the trace: a call to an external library, with its
    arguments and its outcome. *)
Inductive event : Type :=
  | EvTranslate (txt src dest : str) (r : result Translated)
  | EvGTTS (txt lang : str) (slow : bool) (r : result TTS)
  | EvSave (tts : TTS) (path : str) (r : result unit).

Record state := { world : W; calls : list event; stdout : list str }.

Definition init (w : W) : state := {| world := w; calls := []; stdout := [] |}.

(** Lifts an external call into the monad and records it. *)
Definition external {A} (f : W -> result A * W) (ev : result A -> event)
  : M state A :=
  fun st =>
    let '(r, w') := f (world st) in
    (r, {| world := w'; calls := calls st ++ [ev r]; stdout := stdout st |}).

Definition translate (txt src dest : str) : M state Translated :=
  external (translator_translate txt src dest) (EvTranslate txt src dest).

Definition new_gTTS (txt lang : str) (slow : bool) : M state TTS :=
  external (gTTS txt lang slow) (EvGTTS txt lang slow).

Definition save (tts : TTS) (path : str) : M state unit :=
  external (gTTS_save tts path) (EvSave tts path).

(** [print(line)] *)
Definition print (line : str) : M state unit :=
  fun st =>
    (Ok tt, {| world := world st; calls := calls st;
               stdout := stdout st ++ [line] |}).

(** [request.get_json()]: the parsed body, or the exception Flask raises
    for a body that is not JSON. *)
Definition get_json (request : result json) : M state json :=
  match request with
  | Ok data => ret data
  | Raise e => raise e
  end.

(** [data.get(key, dflt)]: only a [dict] has the method. *)
Definition py_get (data : json) (key : string) (dflt : json) : M state json :=
  match data with
  | JDict m => ret (default dflt (m !! lit key))
  | _ => raise (AttributeError data "get")
  end.

(** [v.strip()]: only a [str] has the method. *)
Definition py_strip (v : json) : M state str :=
  match v with
  | JStr s => ret (strip s)
  | _ => raise (AttributeError v "strip")
  end.

(** [translate_text], lines 27-80. *)
Definition translate_text (request : result json) : M state response :=
  try_except
    (data <- get_json request ;;
     v <- py_get data "text" (JStr (lit "")) ;;
     english_text <- py_strip v ;;
     if negb (truthy english_text) then
       ret {| body := jsonify {[ lit "error" := JStr (lit "Please enter English text to translate");
                                 lit "success" := JBool false ]};
              status := 400 |}
     else if (500 <? len english_text)%nat then
       ret {| body := jsonify {[ lit "error" := JStr (lit "Text is too long. Maximum 500 characters allowed.");
                                 lit "success" := JBool false ]};
              status := 400 |}
     else
       translated <- translate english_text (lit "en") (lit "kn") ;;
       let kannada_text := text translated in
       let audio_file_path := os_path_join AUDIO_FOLDER (lit "output.mp3") in
       try_except
         (tts <- new_gTTS kannada_text (lit "kn") false ;;
          save tts audio_file_path)
         (fun audio_error =>
            print (lit "Audio generation warning: " ++ exn_str audio_error)) ;;;
       ret {| body := jsonify {[ lit "success" := JBool true;
                                 lit "english" := JStr english_text;
                                 lit "kannada" := JStr kannada_text;
                                 lit "audio_url" := JStr (lit "/static/output.mp3") ]};
              status := 200 |})
    (fun e =>
       print (lit "Translation error: " ++ exn_str e) ;;;
       ret {| body := jsonify {[ lit "error" := JStr (lit "Translation failed: " ++ exn_str e);
                                 lit "success" := JBool false ]};
              status := 500 |}).

(** The loop of [translate_batch], lines 102-108: [texts] is what is left
    to iterate over, [translations] the list built so far.  [text.strip()]
    exists only when [text] is a [str]. *)
Fixpoint for_text_in (texts : list json) (translations : list json)
  : M state (list json) :=
  match texts with
  | [] => ret translations
  | text_ :: texts' =>
      match text_ with
      | JStr t =>
          if truthy (strip t) then
            translated <- translate t (lit "en") (lit "kn") ;;
            for_text_in texts'
              (translations ++
                 [JDict {[ lit "english" := JStr t;
                           lit "kannada" := JStr (text translated) ]}])
          else for_text_in texts' translations
      | _ => raise (AttributeError text_ "strip")
      end
  end.

(** [translate_batch], lines 83-120.  Past the validation [texts] is a
    non-empty list, the only value the loop can get. *)
Definition translate_batch (request : result json) : M state response :=
  try_except
    (data <- get_json request ;;
     texts <- py_get data "texts" (JList []) ;;
     if negb (py_truthy texts) || negb (isinstance_list texts) then
       ret {| body := jsonify {[ lit "error" := JStr (lit "Please provide a list of texts");
                                 lit "success" := JBool false ]};
              status := 400 |}
     else
       translations <-
         for_text_in (match texts with JList l => l | _ => [] end) [] ;;
       ret {| body := jsonify {[ lit "success" := JBool true;
                                 lit "translations" := JList translations ]};
              status := 200 |})
    (fun e =>
       print (lit "Batch translation error: " ++ exn_str e) ;;;
       ret {| body := jsonify {[ lit "error" := JStr (lit "Batch translation failed: " ++ exn_str e);
                                 lit "success" := JBool false ]};
              status := 500 |}).

(** [voice_translate], lines 123-183. *)
Definition voice_translate (request : result json) : M state response :=
  try_except
    (data <- get_json request ;;
     v <- py_get data "text" (JStr (lit "")) ;;
     english_text <- py_strip v ;;
     if negb (truthy english_text) then
       ret {| body := jsonify {[ lit "error" := JStr (lit "Please enter English text to translate");
                                 lit "success" := JBool false ]};
              status := 400 |}
     else if (500 <? len english_text)%nat then
       ret {| body := jsonify {[ lit "error" := JStr (lit "Text is too long. Maximum 500 characters allowed.");
                                 lit "success" := JBool false ]};
              status := 400 |}
     else
       translated <- translate english_text (lit "en") (lit "kn") ;;
       let kannada_text := text translated in
       let english_audio_path := os_path_join AUDIO_FOLDER (lit "english_audio.mp3") in
       try_except
         (tts_english <- new_gTTS english_text (lit "en") false ;;
          save tts_english english_audio_path)
         (fun audio_error =>
            print (lit "English audio generation warning: " ++ exn_str audio_error)) ;;;
       let kannada_audio_path := os_path_join AUDIO_FOLDER (lit "kannada_audio.mp3") in
       try_except
         (tts_kannada <- new_gTTS kannada_text (lit "kn") false ;;
          save tts_kannada kannada_audio_path)
         (fun audio_error =>
            print (lit "Kannada audio generation warning: " ++ exn_str audio_error)) ;;;
       ret {| body := jsonify {[ lit "success" := JBool true;
                                 lit "english" := JStr english_text;
                                 lit "kannada" := JStr kannada_text;
                                 lit "english_audio_url" := JStr (lit "/static/english_audio.mp3");
                                 lit "kannada_audio_url" := JStr (lit "/static/kannada_audio.mp3") ]};
              status := 200 |})
    (fun e =>
       print (lit "Voice translation error: " ++ exn_str e) ;;;
       ret {| body := jsonify {[ lit "error" := JStr (lit "Voice translation failed: " ++ exn_str e);
                                 lit "success" := JBool false ]};
              status := 500 |}).

End Gateway.

Arguments init {W TTS} w.
Arguments EvTranslate {TTS} txt src dest r.
Arguments EvGTTS {TTS} txt lang slow r.
Arguments EvSave {TTS} tts path r.
Arguments state : clear implicits.
Arguments world {W TTS} s.
Arguments calls {W TTS} s.
Arguments stdout {W TTS} s.
Arguments external {W TTS A} f ev st.
Arguments translate {W TTS} translator_translate txt src dest st.
Arguments new_gTTS {W TTS} gTTS txt lang slow st.
Arguments save {W TTS} gTTS_save tts path st.
Arguments print {W TTS} line st.
Arguments get_json {W TTS} request st.
Arguments py_get {W TTS} data key dflt st.
Arguments py_strip {W TTS} v st.
Arguments for_text_in {W TTS} translator_translate texts translations st.

(** ** Vocabulary of the statements *)

(** [{'error': msg, 'success': False}, code] *)
Definition failure (msg : str) (code : Z) : response :=
  {| body := jsonify {[ lit "error" := JStr msg; lit "success" := JBool false ]};
     status := code |}.

Definition blank : str := lit "Please enter English text to translate".
Definition too_long : str :=
  lit "Text is too long. Maximum 500 characters allowed.".
Definition no_list : str := lit "Please provide a list of texts".

(** The 200 response of [translate_text]. *)
Definition translated_response (english kannada : str) : response :=
  {| body := jsonify {[ lit "success" := JBool true;
                        lit "english" := JStr english;
                        lit "kannada" := JStr kannada;
                        lit "audio_url" := JStr (lit "/static/output.mp3") ]};
     status := 200 |}.

(** The 200 response of [voice_translate]. *)
Definition voice_response (english kannada : str) : response :=
  {| body := jsonify {[ lit "success" := JBool true;
                        lit "english" := JStr english;
                        lit "kannada" := JStr kannada;
                        lit "english_audio_url" := JStr (lit "/static/english_audio.mp3");
                        lit "kannada_audio_url" := JStr (lit "/static/kannada_audio.mp3") ]};
     status := 200 |}.

(** The 200 response of [translate_batch]. *)
Definition batch_response (translations : list json) : response :=
  {| body := jsonify {[ lit "success" := JBool true;
                        lit "translations" := JList translations ]};
     status := 200 |}.

(** One element of [translations]. *)
Definition entry (english : str) (translated : Translated) : json :=
  JDict {[ lit "english" := JStr english;
           lit "kannada" := JStr (text translated) ]}.

(** A text that passes the validation of [translate_text] and
    [voice_translate]: not empty once stripped, at most 500 characters. *)
Definition valid_text (t : str) : Prop :=
  truthy (strip t) = true /\ len (strip t) <= 500.

(** The entries of a batch that are translated; the others are skipped. *)
Definition kept (t : str) : bool := truthy (strip t).

Section Vocabulary.

Context {W TTS : Type}.
Variable gTTS : str -> str -> bool -> W -> result TTS * W.
Variable gTTS_save : TTS -> str -> W -> result unit * W.

(** The state after one call of an external service. *)
Definition after (st : state W TTS) (w' : W) (ev : event TTS) : state W TTS :=
  {| world := w'; calls := calls st ++ [ev]; stdout := stdout st |}.

(** The state after one [print]. *)
Definition logged (st : state W TTS) (line : str) : state W TTS :=
  {| world := world st; calls := calls st; stdout := stdout st ++ [line] |}.

(** One synthesis attempt, as the handlers write it: construct the [gTTS]
    object, save it to [path]; an exception of either step is printed
    after [prefix] and swallowed. *)
Definition attempt (txt lang path prefix : str) : M (state W TTS) unit :=
  try_except
    (tts <- new_gTTS gTTS txt lang false ;; save gTTS_save tts path)
    (fun audio_error => print (prefix ++ exn_str audio_error)).

(** The three courses an attempt can take, each with the state it ends in. *)
Inductive attempted (txt lang path prefix : str) (st : state W TTS)
  : state W TTS -> Prop :=
  | attempted_no_object e w1 :
      gTTS txt lang false (world st) = (Raise e, w1) ->
      attempted txt lang path prefix st
        (logged (after st w1 (EvGTTS txt lang false (Raise e)))
                (prefix ++ exn_str e))
  | attempted_not_saved tts w1 e w2 :
      gTTS txt lang false (world st) = (Ok tts, w1) ->
      gTTS_save tts path w1 = (Raise e, w2) ->
      attempted txt lang path prefix st
        (logged (after (after st w1 (EvGTTS txt lang false (Ok tts)))
                       w2 (EvSave tts path (Raise e)))
                (prefix ++ exn_str e))
  | attempted_saved tts w1 w2 :
      gTTS txt lang false (world st) = (Ok tts, w1) ->
      gTTS_save tts path w1 = (Ok tt, w2) ->
      attempted txt lang path prefix st
        (after (after st w1 (EvGTTS txt lang false (Ok tts)))
               w2 (EvSave tts path (Ok tt))).

(** Synthesis of [txt] to [path] fails with [e] from world [w], leaving
    world [w']: the constructor raises, or [save] does. *)
Definition synthesis_fails (txt lang path : str) (w : W) (e : exn) (w' : W)
  : Prop :=
  gTTS txt lang false w = (Raise e, w')
  \/ exists tts w1, gTTS txt lang false w = (Ok tts, w1)
                    /\ gTTS_save tts path w1 = (Raise e, w').

(** The trace entries that belong to speech synthesis. *)
Definition is_synthesis (ev : event TTS) : bool :=
  match ev with
  | EvTranslate _ _ _ _ => false
  | EvGTTS _ _ _ _ | EvSave _ _ _ => true
  end.

(** A call of the translator that returned. *)
Definition translated_ok (ev : event TTS) : Prop :=
  exists txt src dest tr, ev = EvTranslate txt src dest (Ok tr).

End Vocabulary.

(** ** A small world to run the handlers in *)

Module Demo.

(** The world counts the external calls made so far. *)
Definition clock := nat.

(** The object [gTTS(...)] constructs keeps its text and its language. *)
Definition speech := (str * str)%type.

Definition unavailable : exn :=
  {| exn_class := "ConnectionError"; exn_str := lit "service unavailable" |}.

Definition no_audio : exn :=
  {| exn_class := "gTTSError"; exn_str := lit "no audio" |}.

(** A translator that prefixes its input, and is down for the text
    "boom". *)
Definition translator (txt src dest : str) (w : clock)
  : result Translated * clock :=
  if bool_decide (txt = lit "boom") then (Raise unavailable, S w)
  else (Ok {| text := lit "kn:" ++ txt |}, S w).

(** A synthesiser that refuses the language [bad]. *)
Definition synth (bad : str) (txt lang : str) (slow : bool) (w : clock)
  : result speech * clock :=
  if bool_decide (lang = bad) then (Raise no_audio, S w)
  else (Ok (txt, lang), S w).

Definition store (t : speech) (path : str) (w : clock) : result unit * clock :=
  (Ok tt, S w).

Definition folder : str := lit "/srv/translator/static".

(** The body [{"text": t}]. *)
Definition text_body (t : str) : gmap str json := {[ lit "text" := JStr t ]}.

(** The body [{"text": v}] for a value that need not be a string. *)
Definition text_body_of (v : json) : gmap str json := {[ lit "text" := v ]}.

(** The body [{"texts": v}]. *)
Definition texts_body (v : json) : gmap str json := {[ lit "texts" := v ]}.

(** 501 and 500 times the letter a. *)
Definition a501 : str := replicate 501 97%N.
Definition a500 : str := replicate 500 97%N.

(** The three handlers in this world; [bad] is the language the
    synthesiser refuses. *)
Definition run_text (bad : str) :=
  translate_text clock speech translator (synth bad) store folder.
Definition run_voice (bad : str) :=
  voice_translate clock speech translator (synth bad) store folder.
Definition run_batch := translate_batch clock speech translator.

End Demo.

(** ** The error handlers and the vocabulary of the further properties *)

(** [page_not_found], lines 186-189. *)
Definition page_not_found (e : exn) : response :=
  {| body := jsonify {[ lit "error" := JStr (lit "Page not found") ]};
     status := 404 |}.

(** [internal_error], lines 191-194. *)
Definition internal_error (e : exn) : response :=
  {| body := jsonify {[ lit "error" := JStr (lit "Internal server error") ]};
     status := 500 |}.

(** A field of the JSON object a response carries. *)
Definition field (r : response) (key : string) : option json :=
  match body r with
  | JDict d => d !! lit key
  | _ => None
  end.

(** What the first three statements of [translate_text] and
    [voice_translate] make of a request: the stripped text, or the
    exception of [get_json], of [.get] or of [.strip]. *)
Definition read_text (request : result json) : result str :=
  match request with
  | Raise e => Raise e
  | Ok (JDict m) =>
      match default (JStr (lit "")) (m !! lit "text") with
      | JStr s => Ok (strip s)
      | v => Raise (AttributeError v "strip")
      end
  | Ok data => Raise (AttributeError data "get")
  end.

Definition as_str (v : json) : option str :=
  match v with JStr s => Some s | _ => None end.

(** The entries of a batch up to the first one that is not a string. *)
Fixpoint leading_strings (l : list json) : list str :=
  match l with
  | JStr s :: l' => s :: leading_strings l'
  | _ => []
  end.

Section TraceVocabulary.

Context {TTS : Type}.

(** The texts handed to the translator, in the order of the calls. *)
Definition texts_sent (evs : list (event TTS)) : list str :=
  omap (fun ev => match ev with
                  | EvTranslate t _ _ _ => Some t
                  | _ => None
                  end) evs.

(** The paths [save] was called with. *)
Definition saved_paths (evs : list (event TTS)) : list str :=
  omap (fun ev => match ev with
                  | EvSave _ path _ => Some path
                  | _ => None
                  end) evs.

(** A call that raised. *)
Definition failed (ev : event TTS) : bool :=
  match ev with
  | EvTranslate _ _ _ (Raise _) | EvGTTS _ _ _ (Raise _)
  | EvSave _ _ (Raise _) => true
  | _ => false
  end.

(** The element of [translations] a returned translator call gives. *)
Definition entry_of (ev : event TTS) : option json :=
  match ev with
  | EvTranslate t _ _ (Ok tr) => Some (entry t tr)
  | _ => None
  end.

(** A translator call from English to Kannada. *)
Definition en_to_kn (ev : event TTS) : Prop :=
  exists t r, ev = EvTranslate t (lit "en") (lit "kn") r.

End TraceVocabulary.

Section AnswerVocabulary.

Context {W TTS : Type}.

(** The three shapes an answer of a handler has: 200 with success true;
    400 with success false and the state of the start; 500 with success
    false, a message after [said], and the same message printed last
    after [printed]. *)
Definition answered (said printed : str) (w : W)
    (run : result response * state W TTS) : Prop :=
  exists resp st',
    run = (Ok resp, st')
    /\ ((status resp = 200%Z /\ field resp "success" = Some (JBool true))
        \/ (status resp = 400%Z /\ field resp "success" = Some (JBool false)
            /\ st' = init w)
        \/ (status resp = 500%Z /\ field resp "success" = Some (JBool false)
            /\ exists msg,
                 field resp "error" = Some (JStr (said ++ msg))
                 /\ last (stdout st') = Some (printed ++ msg))).

End AnswerVocabulary.

(** What [translate_batch] reads from a request: the value under
    ["texts"] (the empty list when the key is missing), or the exception
    of [get_json] or of [.get]. *)
Definition read_texts (request : result json) : result json :=
  match request with
  | Raise e => Raise e
  | Ok (JDict m) => Ok (default (JList []) (m !! lit "texts"))
  | Ok data => Raise (AttributeError data "get")
  end.

Section AttemptVocabulary.

Context {W TTS : Type}.
Variable gTTS : str -> str -> bool -> W -> result TTS * W.
Variable gTTS_save : TTS -> str -> W -> result unit * W.

(** The state one synthesis attempt ends in. *)
Definition attempt_state (txt lang path prefix : str) (st : state W TTS)
  : state W TTS :=
  (attempt gTTS gTTS_save txt lang path prefix st).2.

End AttemptVocabulary.

Section BatchVocabulary.

Context {W TTS : Type}.

(** What a run of [translate_batch] over the list [l] shows: only
    English-to-Kannada translator calls; the texts sent are the kept
    strings of [l], in order, up to where the loop stopped; every failed
    call left a line in the output; and a 200 answer lists one element
    per call, with no call failed and nothing printed. *)
Definition batch_traced (l : list json)
    (run : result response * state W TTS) : Prop :=
  let evs := calls run.2 in
  Forall en_to_kn evs
  /\ texts_sent evs `prefix_of` List.filter kept (leading_strings l)
  /\ length (List.filter failed evs) <= length (stdout run.2)
  /\ forall resp,
       run.1 = Ok resp ->
       status resp = 200%Z ->
       resp = batch_response (omap entry_of evs)
       /\ List.filter failed evs = [] /\ stdout run.2 = []
       /\ texts_sent evs = List.filter kept (leading_strings l).

End BatchVocabulary.

(** ** Running the monad step by step *)

Section Steps.

Context {S A B : Type}.

Lemma bind_ok (m : M S A) (k : A -> M S B) st a st' :
  m st = (Ok a, st') -> bind m k st = k a st'.
Proof. unfold bind. by intros ->. Qed.

Lemma bind_raise (m : M S A) (k : A -> M S B) st e st' :
  m st = (Raise e, st') -> bind m k st = (Raise e, st').
Proof. unfold bind. by intros ->. Qed.

Lemma try_except_ok (m : M S A) (h : exn -> M S A) st a st' :
  m st = (Ok a, st') -> try_except m h st = (Ok a, st').
Proof. unfold try_except. by intros ->. Qed.

Lemma try_except_raise (m : M S A) (h : exn -> M S A) st e st' :
  m st = (Raise e, st') -> try_except m h st = h e st'.
Proof. unfold try_except. by intros ->. Qed.

End Steps.

Section ExternalSteps.

Context {W TTS A : Type}.

Lemma external_eq (f : W -> result A * W) (ev : result A -> event TTS)
    (st : state W TTS) r w' :
  f (world st) = (r, w') -> external f ev st = (r, after st w' (ev r)).
Proof. unfold external. by intros ->. Qed.

Lemma py_get_some (m : gmap str json) key dflt v (st : state W TTS) :
  m !! lit key = Some v -> py_get (JDict m) key dflt st = (Ok v, st).
Proof. unfold py_get, ret. by intros ->. Qed.

Lemma py_get_none (m : gmap str json) key dflt (st : state W TTS) :
  m !! lit key = None -> py_get (JDict m) key dflt st = (Ok dflt, st).
Proof. unfold py_get, ret. by intros ->. Qed.

End ExternalSteps.

(** ** Facts about [strip] *)

Section Strip.

Lemma lstrip_spaces (s : str) : forallb isspace s = true -> lstrip s = [].
Proof.
  induction s as [|c s IH]; simpl; [done|].
  intros [Hc Hs]%andb_prop. rewrite Hc. auto.
Qed.

(** A string made of white space only (the empty string included) strips
    to the empty string. *)
Lemma strip_spaces (s : str) : forallb isspace s = true -> strip s = [].
Proof.
  intros H. unfold strip, rstrip. by rewrite (lstrip_spaces s H).
Qed.

(** [strip] and [isspace] on a few inputs. *)
Example strip_hello : strip (lit "  Hello World 	") = lit "Hello World".
Proof. reflexivity. Qed.

Example strip_inner_space_kept : strip (lit "a b") = lit "a b".
Proof. reflexivity. Qed.

Example strip_no_break_space : strip [0xA0; 0x3000; 0x1F]%N = [].
Proof. reflexivity. Qed.

Example zero_width_space_is_not_space : isspace 0x200B%N = false.
Proof. reflexivity. Qed.

Example join_static :
  os_path_join (lit "/srv/app/static") (lit "output.mp3")
  = lit "/srv/app/static/output.mp3".
Proof. reflexivity. Qed.

End Strip.

Section Properties.

Context {W TTS : Type}.
Variable translator_translate : str -> str -> str -> W -> result Translated * W.
Variable gTTS : str -> str -> bool -> W -> result TTS * W.
Variable gTTS_save : TTS -> str -> W -> result unit * W.
Variable AUDIO_FOLDER : str.

Abbreviation translate_text :=
  (translate_text W TTS translator_translate gTTS gTTS_save AUDIO_FOLDER).
Abbreviation translate_batch := (translate_batch W TTS translator_translate).
Abbreviation voice_translate :=
  (voice_translate W TTS translator_translate gTTS gTTS_save AUDIO_FOLDER).
Abbreviation attempt := (attempt gTTS gTTS_save).
Abbreviation attempted := (attempted gTTS gTTS_save).
Abbreviation synthesis_fails := (synthesis_fails gTTS gTTS_save).

Lemma attempt_attempted txt lang path prefix st :
  exists st', attempt txt lang path prefix st = (Ok tt, st')
              /\ attempted txt lang path prefix st st'.
Proof.
  unfold attempt.
  destruct (gTTS txt lang false (world st)) as [[tts|e] w1] eqn:Hnew.
  - destruct (gTTS_save tts path w1) as [[[]|e] w2] eqn:Hsave.
    + eexists; split; [|by eapply attempted_saved].
      erewrite try_except_ok; [reflexivity|].
      erewrite bind_ok by (by apply external_eq).
      by apply external_eq.
    + eexists; split; [|by eapply attempted_not_saved].
      erewrite try_except_raise; [reflexivity|].
      erewrite bind_ok by (by apply external_eq).
      by apply external_eq.
  - eexists; split; [|by eapply attempted_no_object].
    erewrite try_except_raise; [reflexivity|].
    erewrite bind_raise; [reflexivity|]. by apply external_eq.
Qed.

(** ** A single text: validation and the path behind it *)

Ltac read_text Hm :=
  erewrite bind_ok by reflexivity;
  erewrite bind_ok by (by apply py_get_some);
  erewrite bind_ok by reflexivity.

Ltac pass_validation Hv :=
  let Hne := fresh "Hne" in
  let Hlen := fresh "Hlen" in
  destruct Hv as [Hne Hlen];
  rewrite Hne; apply Nat.ltb_ge in Hlen; rewrite Hlen; cbn [negb].

(** [translate_text] on a valid text: the translator is called; when it
    raises, the handler answers 500 and stops; when it returns, one
    synthesis attempt follows and the answer is the 200 response whatever
    the attempt did. *)
Lemma translate_text_valid (m : gmap str json) (t : str) (w : W) :
  m !! lit "text" = Some (JStr t) ->
  valid_text t ->
  match translator_translate (strip t) (lit "en") (lit "kn") w with
  | (Raise e, w1) =>
      translate_text (Ok (JDict m)) (init w)
      = (Ok (failure (lit "Translation failed: " ++ exn_str e) 500),
         logged (after (init w) w1
                   (EvTranslate (strip t) (lit "en") (lit "kn") (Raise e)))
                (lit "Translation error: " ++ exn_str e))
  | (Ok tr, w1) =>
      exists st',
        attempted (text tr) (lit "kn")
          (os_path_join AUDIO_FOLDER (lit "output.mp3"))
          (lit "Audio generation warning: ")
          (after (init w) w1
             (EvTranslate (strip t) (lit "en") (lit "kn") (Ok tr))) st'
        /\ translate_text (Ok (JDict m)) (init w)
           = (Ok (translated_response (strip t) (text tr)), st')
  end.
Proof.
  intros Hm Hv.
  destruct (translator_translate _ _ _ w) as [[tr|e] w1] eqn:Htr.
  - edestruct (attempt_attempted (text tr) (lit "kn")) as (st' & Hrun & Hatt).
    exists st'. split; [exact Hatt|].
    unfold translate_text.
    erewrite try_except_ok; [reflexivity|].
    read_text Hm. pass_validation Hv.
    erewrite bind_ok by (by apply external_eq).
    erewrite bind_ok by exact Hrun.
    reflexivity.
  - unfold translate_text.
    erewrite try_except_raise; [reflexivity|].
    read_text Hm. pass_validation Hv.
    erewrite bind_raise; [reflexivity|]. by apply external_eq.
Qed.

(** [voice_translate] on a valid text: as [translate_text], with two
    synthesis attempts in a row, the English one first. *)
Lemma voice_translate_valid (m : gmap str json) (t : str) (w : W) :
  m !! lit "text" = Some (JStr t) ->
  valid_text t ->
  match translator_translate (strip t) (lit "en") (lit "kn") w with
  | (Raise e, w1) =>
      voice_translate (Ok (JDict m)) (init w)
      = (Ok (failure (lit "Voice translation failed: " ++ exn_str e) 500),
         logged (after (init w) w1
                   (EvTranslate (strip t) (lit "en") (lit "kn") (Raise e)))
                (lit "Voice translation error: " ++ exn_str e))
  | (Ok tr, w1) =>
      exists st1 st2,
        attempted (strip t) (lit "en")
          (os_path_join AUDIO_FOLDER (lit "english_audio.mp3"))
          (lit "English audio generation warning: ")
          (after (init w) w1
             (EvTranslate (strip t) (lit "en") (lit "kn") (Ok tr))) st1
        /\ attempted (text tr) (lit "kn")
             (os_path_join AUDIO_FOLDER (lit "kannada_audio.mp3"))
             (lit "Kannada audio generation warning: ") st1 st2
        /\ voice_translate (Ok (JDict m)) (init w)
           = (Ok (voice_response (strip t) (text tr)), st2)
  end.
Proof.
  intros Hm Hv.
  destruct (translator_translate _ _ _ w) as [[tr|e] w1] eqn:Htr.
  - edestruct (attempt_attempted (strip t) (lit "en")) as (st1 & Hrun1 & Hatt1).
    edestruct (attempt_attempted (text tr) (lit "kn")) as (st2 & Hrun2 & Hatt2).
    exists st1, st2. split; [exact Hatt1|]. split; [exact Hatt2|].
    unfold voice_translate.
    erewrite try_except_ok; [reflexivity|].
    read_text Hm. pass_validation Hv.
    erewrite bind_ok by (by apply external_eq).
    erewrite bind_ok by exact Hrun1.
    erewrite bind_ok by exact Hrun2.
    reflexivity.
  - unfold voice_translate.
    erewrite try_except_raise; [reflexivity|].
    read_text Hm. pass_validation Hv.
    erewrite bind_raise; [reflexivity|]. by apply external_eq.
Qed.

(** C5: a text that is empty or all white space is answered with the 400
    validation failure (success false) by [translate_text] and by
    [voice_translate], and the state is the initial one: no call of the
    translator or of gTTS has been made. *)
Theorem blank_text_rejected (m : gmap str json) (t : str) (w : W) :
  m !! lit "text" = Some (JStr t) ->
  forallb isspace t = true ->
  translate_text (Ok (JDict m)) (init w) = (Ok (failure blank 400), init w)
  /\ voice_translate (Ok (JDict m)) (init w) = (Ok (failure blank 400), init w).
Proof.
  intros Hm Ht. split.
  - unfold translate_text.
    erewrite try_except_ok; [reflexivity|].
    read_text Hm. by rewrite (strip_spaces t Ht).
  - unfold voice_translate.
    erewrite try_except_ok; [reflexivity|].
    read_text Hm. by rewrite (strip_spaces t Ht).
Qed.

Lemma long_is_truthy (s : str) : 0 < len s -> truthy s = true.
Proof. destruct s; simpl; [lia|done]. Qed.

(** C6: a text whose stripped length exceeds 500 is answered with the 400
    validation failure (success false) by both handlers, before any
    external call.  A text of stripped length exactly 500 passes the
    check: both handlers go on to call the translator with it and the
    status of the answer is not 400. *)
Theorem long_text_rejected (m : gmap str json) (t : str) (w : W) :
  m !! lit "text" = Some (JStr t) ->
  (500 < len (strip t) ->
   translate_text (Ok (JDict m)) (init w) = (Ok (failure too_long 400), init w)
   /\ voice_translate (Ok (JDict m)) (init w)
      = (Ok (failure too_long 400), init w))
  /\ (len (strip t) = 500 ->
      (exists resp st' r rest,
          translate_text (Ok (JDict m)) (init w) = (Ok resp, st')
          /\ status resp <> 400%Z
          /\ calls st' = EvTranslate (strip t) (lit "en") (lit "kn") r :: rest)
      /\ (exists resp st' r rest,
             voice_translate (Ok (JDict m)) (init w) = (Ok resp, st')
             /\ status resp <> 400%Z
             /\ calls st' = EvTranslate (strip t) (lit "en") (lit "kn") r :: rest)).
Proof.
  intros Hm. split.
  - intros Hlong.
    assert (Hne : truthy (strip t) = true) by (apply long_is_truthy; lia).
    apply Nat.ltb_lt in Hlong.
    split.
    + unfold translate_text.
      erewrite try_except_ok; [reflexivity|].
      read_text Hm. by rewrite Hne, Hlong.
    + unfold voice_translate.
      erewrite try_except_ok; [reflexivity|].
      read_text Hm. by rewrite Hne, Hlong.
  - intros H500.
    assert (Hv : valid_text t).
    { split; [apply long_is_truthy|]; lia. }
    split.
    + pose proof (translate_text_valid m t w Hm Hv) as Hrun.
      destruct (translator_translate _ _ _ w) as [[tr|e] w1].
      * destruct Hrun as (st' & Hatt & Hrun).
        exists (translated_response (strip t) (text tr)), st'.
        destruct Hatt; eexists _, _; (split; [exact Hrun|]); split; done.
      * eexists _, _, _, _. split; [exact Hrun|]. split; done.
    + pose proof (voice_translate_valid m t w Hm Hv) as Hrun.
      destruct (translator_translate _ _ _ w) as [[tr|e] w1].
      * destruct Hrun as (st1 & st2 & Hatt1 & Hatt2 & Hrun).
        exists (voice_response (strip t) (text tr)), st2.
        destruct Hatt1, Hatt2; eexists _, _; (split; [exact Hrun|]); split; done.
      * eexists _, _, _, _. split; [exact Hrun|]. split; done.
Qed.




(** ** The loop of [translate_batch] *)

(** What one run of the loop leaves behind.  Nothing is printed and the
    trace grows by translator calls only.  When the loop returns, every
    entry was a string and every call returned.  When it raises [e], all
    calls but possibly the last returned, and [e] comes either from
    [strip] on an entry that is not a string or from the last call. *)
Lemma for_text_in_trace (texts : list json) :
  forall (acc : list json) (st : state W TTS) r st',
    for_text_in translator_translate texts acc st = (r, st') ->
    exists evs,
      calls st' = calls st ++ evs
      /\ stdout st' = stdout st
      /\ match r with
         | Ok _ =>
             Forall translated_ok evs /\ Forall (fun v => is_str v = true) texts
         | Raise e =>
             exists evs0,
               Forall translated_ok evs0
               /\ ((evs = evs0
                    /\ exists v, v ∈ texts /\ is_str v = false
                                 /\ e = AttributeError v "strip")
                   \/ (exists t, JStr t ∈ texts
                          /\ evs = evs0
                               ++ [EvTranslate t (lit "en") (lit "kn") (Raise e)]))
         end.
Proof.
  induction texts as [|v texts IH]; intros acc st r st' Hrun.
  - cbn [for_text_in] in Hrun. unfold ret in Hrun. simplify_eq. exists []. rewrite app_nil_r. by repeat split.
  - assert (Hnot : is_str v = false ->
                   r = Raise (AttributeError v "strip") /\ st' = st).
    { intros Hv. destruct v; try discriminate Hv;
        cbn [for_text_in] in Hrun; unfold raise in Hrun; by simplify_eq. }
    destruct v as [| | | |t| |];
      try (destruct Hnot as [-> ->]; [done|];
           exists []; rewrite app_nil_r; do 2 (split; [done|]);
           exists []; split; [constructor|]; left; split; [done|];
           eexists; split; [apply list_elem_of_here|done]).
    clear Hnot. cbn [for_text_in] in Hrun.
    destruct (truthy (strip t)) eqn:Hkept.
    + destruct (translator_translate t (lit "en") (lit "kn") (world st))
        as [[tr|e] w1] eqn:Htr.
      * erewrite bind_ok in Hrun by (by apply external_eq).
        apply IH in Hrun as (evs & Hcalls & Hout & Hr).
        exists (EvTranslate t (lit "en") (lit "kn") (Ok tr) :: evs).
        split; [rewrite Hcalls; cbn [calls after]; by rewrite <- app_assoc|].
        split; [done|].
        assert (Hok : translated_ok
                        (TTS:=TTS) (EvTranslate t (lit "en") (lit "kn") (Ok tr)))
          by (by eexists _, _, _, _).
        destruct r as [trs|e].
        -- destruct Hr as [Hevs Hstr]. split; by constructor.
        -- destruct Hr as (evs0 & Hevs0 & Hr).
           exists (EvTranslate t (lit "en") (lit "kn") (Ok tr) :: evs0).
           split; [by constructor|].
           destruct Hr as [(-> & v & Hv & Hns & ->) | (t' & Ht' & ->)].
           ++ left. split; [done|]. exists v. split; [by apply list_elem_of_further|done].
           ++ right. exists t'. split; [by apply list_elem_of_further|done].
      * erewrite bind_raise in Hrun by (by apply external_eq).
        simplify_eq. eexists. split; [reflexivity|]. split; [done|].
        exists []. split; [constructor|]. right. exists t.
        split; [apply list_elem_of_here|done].
    + apply IH in Hrun as (evs & Hcalls & Hout & Hr).
      exists evs. do 2 (split; [done|]).
      destruct r as [trs|e].
      * destruct Hr as [Hevs Hstr]. split; [done|]. by constructor.
      * destruct Hr as (evs0 & Hevs0 & Hr). exists evs0. split; [done|].
        destruct Hr as [(-> & v & Hv & Hns & ->) | (t' & Ht' & ->)].
        -- left. split; [done|]. exists v. split; [by apply list_elem_of_further|done].
        -- right. exists t'. split; [by apply list_elem_of_further|done].
Qed.

(** Entries that strip to the empty string are passed over: no call, no
    output entry. *)
Lemma for_text_in_skipped (ss : list str) (acc : list json) (st : state W TTS) :
  Forall (fun s => strip s = []) ss ->
  for_text_in translator_translate (JStr <$> ss) acc st = (Ok acc, st).
Proof.
  induction 1 as [|s ss Hs _ IH]; [done|].
  cbn [fmap list_fmap for_text_in]. by rewrite Hs.
Qed.

(** On a list of strings on whose kept entries the translator returns, the
    loop appends one entry per kept string, in the order of the input. *)
Lemma for_text_in_strings (ts : list str) :
  (forall t w, t ∈ ts -> kept t = true ->
     exists tr w', translator_translate t (lit "en") (lit "kn") w = (Ok tr, w')) ->
  forall (acc : list json) (st : state W TTS),
  exists trs st',
    for_text_in translator_translate (JStr <$> ts) acc st
    = (Ok (acc ++ zip_with entry (List.filter kept ts) trs), st')
    /\ length trs = length (List.filter kept ts)
    /\ calls st'
       = calls st
           ++ zip_with (fun t tr => EvTranslate t (lit "en") (lit "kn") (Ok tr))
                (List.filter kept ts) trs
    /\ stdout st' = stdout st.
Proof.
  induction ts as [|t ts IH]; intros Hsvc acc st.
  - exists [], st. cbn. by rewrite !app_nil_r.
  - assert (Hsvc' : forall t0 w, t0 ∈ ts -> kept t0 = true ->
              exists tr w', translator_translate t0 (lit "en") (lit "kn") w
                            = (Ok tr, w')).
    { intros t0 w Hin. apply Hsvc. by apply list_elem_of_further. }
    cbn [fmap list_fmap for_text_in List.filter].
    fold (kept t). destruct (kept t) eqn:Hkept.
    + destruct (Hsvc t (world st) (list_elem_of_here _ _) Hkept) as (tr & w1 & Htr).
      erewrite bind_ok by (by apply external_eq).
      destruct (IH Hsvc' (acc ++ [JDict {[ lit "english" := JStr t;
                                           lit "kannada" := JStr (text tr) ]}])
                  (after st w1 (EvTranslate t (lit "en") (lit "kn") (Ok tr))))
        as (trs & st' & Hrun & Hlen & Hcalls & Hout).
      exists (tr :: trs), st'. split; [|split; [|split]].
      * fold (@fmap list _ _ _ JStr ts). rewrite Hrun.
        by rewrite <- app_assoc.
      * cbn. by rewrite Hlen.
      * rewrite Hcalls. cbn [calls after zip_with]. by rewrite <- app_assoc.
      * done.
    + apply (IH Hsvc').
Qed.

(** ** [translate_batch] before and behind its validation *)

(** A body whose ["texts"] is missing, the empty list, or not a list is
    answered with the 400 validation failure; the state is untouched. *)
Lemma translate_batch_invalid (m : gmap str json) (w : W) :
  m !! lit "texts" = None
  \/ (exists v, m !! lit "texts" = Some v
                /\ (v = JList [] \/ isinstance_list v = false)) ->
  translate_batch (Ok (JDict m)) (init w) = (Ok (failure no_list 400), init w).
Proof.
  intros [Hm | (v & Hm & Hv)]; unfold translate_batch.
  - erewrite try_except_ok; [reflexivity|].
    erewrite bind_ok by reflexivity.
    erewrite bind_ok by (by apply py_get_none). reflexivity.
  - erewrite try_except_ok; [reflexivity|].
    erewrite bind_ok by reflexivity.
    erewrite bind_ok by (by apply py_get_some).
    destruct Hv as [-> | Hv]; [reflexivity|].
    rewrite Hv. by rewrite orb_true_r.
Qed.

(** On a non-empty list the loop runs, and its outcome decides between the
    200 response and the 500 one. *)
Lemma translate_batch_loop (m : gmap str json) (l : list json) (w : W) :
  m !! lit "texts" = Some (JList l) ->
  l <> [] ->
  translate_batch (Ok (JDict m)) (init w)
  = match for_text_in translator_translate l [] (init w) with
    | (Ok translations, st') => (Ok (batch_response translations), st')
    | (Raise e, st') =>
        (Ok (failure (lit "Batch translation failed: " ++ exn_str e) 500),
         logged st' (lit "Batch translation error: " ++ exn_str e))
    end.
Proof.
  intros Hm Hl. unfold translate_batch.
  destruct l as [|v l]; [done|].
  destruct (for_text_in _ _ _ _) as [[trs|e] st'] eqn:Hrun.
  - erewrite try_except_ok; [reflexivity|].
    erewrite bind_ok by reflexivity.
    erewrite bind_ok by (by apply py_get_some).
    cbn [py_truthy isinstance_list negb orb].
    erewrite bind_ok by exact Hrun. reflexivity.
  - erewrite try_except_raise; [reflexivity|].
    erewrite bind_ok by reflexivity.
    erewrite bind_ok by (by apply py_get_some).
    cbn [py_truthy isinstance_list negb orb].
    erewrite bind_raise by exact Hrun. reflexivity.
Qed.

(** C7: when ["texts"] is missing from the body, is the empty list, or is
    any value that is not a list (null, a boolean, a number, a string, an
    object), [translate_batch] answers with the 400 validation failure
    (success false) and the state is the initial one: no external call
    has been made. *)
Theorem malformed_batch_rejected (m : gmap str json) (w : W) :
  m !! lit "texts" = None
  \/ (exists v, m !! lit "texts" = Some v
                /\ (v = JList [] \/ isinstance_list v = false)) ->
  translate_batch (Ok (JDict m)) (init w)
  = (Ok {| body := jsonify {[ lit "error" := JStr (lit "Please provide a list of texts");
                              lit "success" := JBool false ]};
           status := 400 |},
     init w).
Proof. apply translate_batch_invalid. Qed.

(** C10: on a non-empty list of strings that all strip to the empty
    string, [translate_batch] answers 200 with success true and an empty
    [translations] list, and the state is the initial one: the translator
    has not been called. *)
Theorem blank_batch_succeeds (m : gmap str json) (ss : list str) (w : W) :
  m !! lit "texts" = Some (JList (JStr <$> ss)) ->
  ss <> [] ->
  Forall (fun s => strip s = []) ss ->
  translate_batch (Ok (JDict m)) (init w)
  = (Ok {| body := jsonify {[ lit "success" := JBool true;
                              lit "translations" := JList [] ]};
           status := 200 |},
     init w).
Proof.
  intros Hm Hne Hblank.
  rewrite (translate_batch_loop m _ w Hm) by (by destruct ss).
  by rewrite for_text_in_skipped.
Qed.

(** C9: when some entry of the list is not a string, [translate_batch]
    answers 500 with the batch-failure message around [str(e)], never 200
    and never 400.  The exception [e] is the [AttributeError] that
    [strip] raises on an entry that is not a string, unless the
    translator raised [e] on an earlier entry. *)
Theorem non_string_entry_fails (m : gmap str json) (l : list json) (w : W) :
  m !! lit "texts" = Some (JList l) ->
  Exists (fun v => is_str v = false) l ->
  exists e st',
    translate_batch (Ok (JDict m)) (init w)
    = (Ok {| body := jsonify {[ lit "error" := JStr (lit "Batch translation failed: " ++ exn_str e);
                                lit "success" := JBool false ]};
             status := 500 |}, st')
    /\ ((exists v, v ∈ l /\ is_str v = false /\ e = AttributeError v "strip")
        \/ (exists t, JStr t ∈ l
               /\ last (calls st')
                  = Some (EvTranslate t (lit "en") (lit "kn") (Raise e)))).
Proof.
  intros Hm Hex.
  assert (Hne : l <> []) by (intros ->; by apply Exists_nil in Hex).
  rewrite (translate_batch_loop m l w Hm Hne).
  destruct (for_text_in _ _ _ _) as [[trs|e] st'] eqn:Hrun;
    apply for_text_in_trace in Hrun as (evs & Hcalls & Hout & Hr).
  - destruct Hr as [_ Hstr]. exfalso.
    apply Exists_exists in Hex as (v & Hv & Hns).
    rewrite Forall_forall in Hstr. specialize (Hstr v Hv). congruence.
  - eexists _, _. split; [reflexivity|].
    destruct Hr as (evs0 & _ & [(_ & Hv) | (t & Ht & ->)]); [by left|].
    right. exists t. split; [done|].
    cbn [calls logged]. rewrite Hcalls. by rewrite app_assoc, last_snoc.
Qed.

(** A request about which [translate_batch] never reaches its loop leaves
    an empty trace. *)
Lemma translate_batch_no_loop (request : result json) (w : W) :
  (forall m v l, request = Ok (JDict m) -> m !! lit "texts" = Some (JList (v :: l))
                 -> False) ->
  calls (translate_batch request (init w)).2 = [].
Proof.
  intros Hno.
  destruct request as [data|e]; [|done].
  destruct data as [| | | | | |m]; try done.
  destruct (m !! lit "texts") as [v|] eqn:Hm.
  - destruct v as [| | | | |[|v l]|];
      try (rewrite translate_batch_invalid;
           [done | right; eexists; split; [done|]; by right]).
    + rewrite translate_batch_invalid; [done|].
      right. eexists. split; [done|]. by left.
    + by destruct (Hno m v l).
  - rewrite translate_batch_invalid; [done | by left].
Qed.


(** C1: for [texts = ["Hello", "", "World"]], when the translator returns
    on "Hello" and then on "World", [translate_batch] answers 200 with
    success true and exactly two entries, the one for "Hello" and then the
    one for "World"; the translator was called for these two only.  For
    every list of strings on whose kept entries the translator returns,
    the answer is 200 with one entry per entry that is not empty once
    stripped, in the order of the input, and no entry for the others. *)
Theorem batch_skips_blank_entries :
  (forall (m : gmap str json) (w w1 w2 : W) (tr1 tr2 : Translated),
      m !! lit "texts"
      = Some (JList [JStr (lit "Hello"); JStr (lit ""); JStr (lit "World")]) ->
      translator_translate (lit "Hello") (lit "en") (lit "kn") w = (Ok tr1, w1) ->
      translator_translate (lit "World") (lit "en") (lit "kn") w1 = (Ok tr2, w2) ->
      translate_batch (Ok (JDict m)) (init w)
      = (Ok {| body := jsonify
                 {[ lit "success" := JBool true;
                    lit "translations" :=
                      JList [JDict {[ lit "english" := JStr (lit "Hello");
                                      lit "kannada" := JStr (text tr1) ]};
                             JDict {[ lit "english" := JStr (lit "World");
                                      lit "kannada" := JStr (text tr2) ]}] ]};
               status := 200 |},
         {| world := w2;
            calls := [EvTranslate (lit "Hello") (lit "en") (lit "kn") (Ok tr1);
                      EvTranslate (lit "World") (lit "en") (lit "kn") (Ok tr2)];
            stdout := [] |}))
  /\ (forall (m : gmap str json) (ts : list str) (w : W),
         m !! lit "texts" = Some (JList (JStr <$> ts)) ->
         ts <> [] ->
         (forall t w0, t ∈ ts -> kept t = true ->
            exists tr w', translator_translate t (lit "en") (lit "kn") w0
                          = (Ok tr, w')) ->
         exists trs st',
           translate_batch (Ok (JDict m)) (init w)
           = (Ok {| body := jsonify
                      {[ lit "success" := JBool true;
                         lit "translations" :=
                           JList (zip_with entry (List.filter kept ts) trs) ]};
                    status := 200 |}, st')
           /\ length trs = length (List.filter kept ts)
           /\ calls st'
              = zip_with (fun t tr => EvTranslate t (lit "en") (lit "kn") (Ok tr))
                  (List.filter kept ts) trs).
Proof.
  split.
  - intros m w w1 w2 tr1 tr2 Hm Htr1 Htr2.
    rewrite (translate_batch_loop m _ w Hm) by done.
    cbn [for_text_in].
    change (truthy (strip (lit "Hello"))) with true.
    change (truthy (strip (lit ""))) with false.
    change (truthy (strip (lit "World"))) with true.
    cbn iota.
    erewrite bind_ok by (by apply external_eq).
    erewrite bind_ok by (by apply external_eq).
    reflexivity.
  - intros m ts w Hm Hne Hsvc.
    rewrite (translate_batch_loop m _ w Hm) by (by destruct ts).
    destruct (for_text_in_strings ts Hsvc [] (init w))
      as (trs & st' & -> & Hlen & Hcalls & _).
    by exists trs, st'.
Qed.

End Properties.

(** ** The statements at concrete inputs *)

(** A text of two spaces, in the demo world. *)
Lemma blank_text_rejected_witness :
  Demo.run_text (lit "kn") (Ok (JDict (Demo.text_body (lit "  ")))) (init 0)
  = (Ok (failure blank 400), init 0)
  /\ Demo.run_voice (lit "kn") (Ok (JDict (Demo.text_body (lit "  ")))) (init 0)
     = (Ok (failure blank 400), init 0).
Proof.
  apply (blank_text_rejected Demo.translator (Demo.synth (lit "kn")) Demo.store
           Demo.folder (Demo.text_body (lit "  ")) (lit "  ") 0); reflexivity.
Defined.

(** 501 letters are refused; 500 letters reach the translator. *)
Lemma long_text_rejected_witness :
  (Demo.run_text (lit "kn") (Ok (JDict (Demo.text_body Demo.a501))) (init 0)
   = (Ok (failure too_long 400), init 0)
   /\ Demo.run_voice (lit "kn") (Ok (JDict (Demo.text_body Demo.a501))) (init 0)
      = (Ok (failure too_long 400), init 0))
  /\ (exists resp st' r rest,
         Demo.run_text (lit "kn") (Ok (JDict (Demo.text_body Demo.a500))) (init 0)
         = (Ok resp, st')
         /\ status resp <> 400%Z
         /\ calls st' = EvTranslate (strip Demo.a500) (lit "en") (lit "kn") r :: rest).
Proof.
  split.
  - apply (long_text_rejected Demo.translator (Demo.synth (lit "kn")) Demo.store
             Demo.folder (Demo.text_body Demo.a501) Demo.a501 0);
      [reflexivity | vm_compute; lia].
  - apply (long_text_rejected Demo.translator (Demo.synth (lit "kn")) Demo.store
             Demo.folder (Demo.text_body Demo.a500) Demo.a500 0);
      [reflexivity | vm_compute; reflexivity].
Defined.




(** ["texts"] is a string and not a list. *)
Lemma malformed_batch_rejected_witness :
  Demo.run_batch (Ok (JDict (Demo.texts_body (JStr (lit "Hello"))))) (init 0)
  = (Ok (failure no_list 400), init 0).
Proof.
  apply (malformed_batch_rejected Demo.translator
           (Demo.texts_body (JStr (lit "Hello"))) 0).
  right. exists (JStr (lit "Hello")). split; [reflexivity|]. right. reflexivity.
Defined.

(** The batch ["", "  "]. *)
Lemma blank_batch_succeeds_witness :
  Demo.run_batch
    (Ok (JDict (Demo.texts_body (JList [JStr (lit ""); JStr (lit "  ")]))))
    (init 0)
  = (Ok (batch_response []), init 0).
Proof.
  apply (blank_batch_succeeds Demo.translator
           (Demo.texts_body (JList [JStr (lit ""); JStr (lit "  ")]))
           [lit ""; lit "  "] 0).
  - reflexivity.
  - discriminate.
  - repeat constructor.
Defined.

(** The batch ["Hello", 5]. *)
Lemma non_string_entry_fails_witness :
  exists e st',
    Demo.run_batch
      (Ok (JDict (Demo.texts_body (JList [JStr (lit "Hello"); JInt 5]))))
      (init 0)
    = (Ok (failure (lit "Batch translation failed: " ++ exn_str e) 500), st')
    /\ ((exists v, v ∈ [JStr (lit "Hello"); JInt 5] /\ is_str v = false
                   /\ e = AttributeError v "strip")
        \/ (exists t, JStr t ∈ [JStr (lit "Hello"); JInt 5]
               /\ last (calls st')
                  = Some (EvTranslate t (lit "en") (lit "kn") (Raise e)))).
Proof.
  apply (non_string_entry_fails Demo.translator
           (Demo.texts_body (JList [JStr (lit "Hello"); JInt 5]))
           [JStr (lit "Hello"); JInt 5] 0).
  - reflexivity.
  - apply Exists_cons_tl, Exists_cons_hd. reflexivity.
Defined.


(** The batch of the specification, and the batch [" a ", "  ", "b"]. *)
Lemma batch_skips_blank_entries_witness :
  Demo.run_batch
    (Ok (JDict (Demo.texts_body
                  (JList [JStr (lit "Hello"); JStr (lit ""); JStr (lit "World")]))))
    (init 0)
  = (Ok (batch_response [entry (lit "Hello") {| text := lit "kn:Hello" |};
                         entry (lit "World") {| text := lit "kn:World" |}]),
     {| world := 2;
        calls := [EvTranslate (lit "Hello") (lit "en") (lit "kn")
                    (Ok {| text := lit "kn:Hello" |});
                  EvTranslate (lit "World") (lit "en") (lit "kn")
                    (Ok {| text := lit "kn:World" |})];
        stdout := [] |})
  /\ (exists trs st',
         Demo.run_batch
           (Ok (JDict (Demo.texts_body
                         (JList (JStr <$> [lit " a "; lit "  "; lit "b"])))))
           (init 0)
         = (Ok (batch_response
                  (zip_with entry
                     (List.filter kept [lit " a "; lit "  "; lit "b"]) trs)), st')
         /\ length trs = length (List.filter kept [lit " a "; lit "  "; lit "b"])
         /\ calls st'
            = zip_with (fun t tr => EvTranslate t (lit "en") (lit "kn") (Ok tr))
                (List.filter kept [lit " a "; lit "  "; lit "b"]) trs).
Proof.
  split.
  - apply (proj1 (batch_skips_blank_entries Demo.translator)
             (Demo.texts_body
                (JList [JStr (lit "Hello"); JStr (lit ""); JStr (lit "World")]))
             0 1 2 {| text := lit "kn:Hello" |} {| text := lit "kn:World" |});
      reflexivity.
  - apply (proj2 (batch_skips_blank_entries Demo.translator)
             (Demo.texts_body (JList (JStr <$> [lit " a "; lit "  "; lit "b"])))
             [lit " a "; lit "  "; lit "b"] 0).
    + reflexivity.
    + discriminate.
    + intros t w0 Hin _.
      apply list_elem_of_In in Hin. simpl in Hin.
      destruct Hin as [<- | [<- | [<- | []]]]; eexists _, _; reflexivity.
Defined.

(** * Further properties of the handlers *)

(** ** More on [strip] *)

Section StripShape.

Lemma lstrip_pad (pre s : str) :
  forallb isspace pre = true -> lstrip (pre ++ s) = lstrip s.
Proof.
  induction pre as [|c pre IH]; [done|]. cbn [forallb app lstrip].
  intros [Hc Hpre]%andb_prop. rewrite Hc. auto.
Qed.

Lemma forallb_reverse (f : codepoint -> bool) (s : str) :
  forallb f (reverse s) = forallb f s.
Proof.
  induction s as [|c s IH]; [done|].
  rewrite reverse_cons, forallb_app, IH. cbn. rewrite andb_true_r.
  apply andb_comm.
Qed.

Lemma rstrip_pad (s post : str) :
  forallb isspace post = true -> rstrip (s ++ post) = rstrip s.
Proof.
  intros Hpost. unfold rstrip. rewrite reverse_app.
  rewrite lstrip_pad; [done|]. by rewrite forallb_reverse.
Qed.

(** [lstrip] removes a prefix of white space and nothing else. *)
Lemma lstrip_split (s : str) :
  exists pre, s = pre ++ lstrip s /\ forallb isspace pre = true.
Proof.
  induction s as [|c s (pre & Hs & Hpre)]; [by exists []|].
  cbn [lstrip]. destruct (isspace c) eqn:Hc.
  - exists (c :: pre). cbn. rewrite Hc, Hpre. split; [congruence|done].
  - by exists [].
Qed.

(** [rstrip] removes a suffix of white space and nothing else. *)
Lemma rstrip_split (s : str) :
  exists post, s = rstrip s ++ post /\ forallb isspace post = true.
Proof.
  destruct (lstrip_split (reverse s)) as (pre & Hs & Hpre).
  exists (reverse pre). split; [|by rewrite forallb_reverse].
  unfold rstrip. rewrite <- reverse_app, <- Hs. by rewrite reverse_involutive.
Qed.

Lemma lstrip_head (s : str) (c : codepoint) :
  head (lstrip s) = Some c -> isspace c = false.
Proof.
  induction s as [|d s IH]; [done|]. cbn [lstrip].
  destruct (isspace d) eqn:Hd; [done|]. cbn. congruence.
Qed.

Lemma rstrip_last (s : str) (c : codepoint) :
  last (rstrip s) = Some c -> isspace c = false.
Proof.
  unfold rstrip. rewrite last_reverse. apply lstrip_head.
Qed.

(** [s.strip()] sits inside [s] between two runs of white space. *)
Lemma strip_split (s : str) :
  exists pre post,
    s = pre ++ strip s ++ post
    /\ forallb isspace pre = true /\ forallb isspace post = true.
Proof.
  destruct (lstrip_split s) as (pre & Hs & Hpre).
  destruct (rstrip_split (lstrip s)) as (post & Hl & Hpost).
  exists pre, post. unfold strip. by rewrite <- Hl, <- Hs.
Qed.

(** What is left after [strip] neither starts nor ends with white space. *)
Lemma strip_ends (s : str) :
  (forall c, head (strip s) = Some c -> isspace c = false)
  /\ (forall c, last (strip s) = Some c -> isspace c = false).
Proof.
  split; intros c Hc; [|by apply (rstrip_last (lstrip s))].
  destruct (rstrip_split (lstrip s)) as (post & Hl & _).
  apply (lstrip_head s). rewrite Hl. fold (strip s).
  destruct (strip s); [done|]. exact Hc.
Qed.

Lemma strip_len (s : str) : len (strip s) <= len s.
Proof.
  destruct (strip_split s) as (pre & post & Hs & _).
  rewrite Hs at 2. unfold len. rewrite !length_app. lia.
Qed.

(** White space around a text does not change what [strip] returns. *)
Lemma strip_pad (pre s post : str) :
  forallb isspace pre = true -> forallb isspace post = true ->
  strip (pre ++ s ++ post) = strip s.
Proof.
  intros Hpre Hpost. unfold strip. rewrite lstrip_pad by done.
  destruct (lstrip_split s) as (p & Hs & Hp).
  destruct (lstrip s) as [|c l] eqn:Hl.
  - rewrite app_nil_r in Hs. rewrite Hs, lstrip_pad by done.
    by rewrite (lstrip_spaces post Hpost).
  - assert (Hc : isspace c = false) by (apply (lstrip_head s); by rewrite Hl).
    assert (Hgo : lstrip (s ++ post) = (c :: l) ++ post).
    { rewrite Hs at 1. rewrite <- app_assoc, lstrip_pad by done.
      cbn. by rewrite Hc. }
    rewrite Hgo. by apply rstrip_pad.
Qed.

End StripShape.

Section Coverage.

Context {W TTS : Type}.
Variable translator_translate : str -> str -> str -> W -> result Translated * W.
Variable gTTS : str -> str -> bool -> W -> result TTS * W.
Variable gTTS_save : TTS -> str -> W -> result unit * W.
Variable AUDIO_FOLDER : str.

Abbreviation translate_text :=
  (translate_text W TTS translator_translate gTTS gTTS_save AUDIO_FOLDER).
Abbreviation translate_batch := (translate_batch W TTS translator_translate).
Abbreviation voice_translate :=
  (voice_translate W TTS translator_translate gTTS gTTS_save AUDIO_FOLDER).
Abbreviation attempt := (attempt gTTS gTTS_save).
Abbreviation attempted := (attempted gTTS gTTS_save).
Abbreviation attempt_state := (attempt_state gTTS gTTS_save).

(** ** The handlers in one equation each *)

(** The first three statements of the two single-text handlers, whatever
    follows them. *)
Lemma read_text_run {A} (request : result json)
    (k : str -> M (state W TTS) A) (st : state W TTS) :
  (data <- get_json request ;;
   v <- py_get data "text" (JStr (lit "")) ;;
   english_text <- py_strip v ;;
   k english_text) st
  = match read_text request with
    | Ok s => k s st
    | Raise e => (Raise e, st)
    end.
Proof.
  destruct request as [data|e]; [|done].
  destruct data as [| | | | | |m]; try done.
  unfold read_text, bind, get_json, py_get, ret. cbn beta iota.
  by destruct (default (JStr (lit "")) (m !! lit "text")).
Qed.

Lemma attempt_run txt lang path prefix st :
  attempt txt lang path prefix st
  = (Ok tt, attempt_state txt lang path prefix st)
  /\ attempted txt lang path prefix st (attempt_state txt lang path prefix st).
Proof.
  unfold attempt_state.
  destruct (attempt_attempted gTTS gTTS_save txt lang path prefix st)
    as (st' & -> & Hatt).
  done.
Qed.

(** [translate_text] on every request. *)
Lemma translate_text_run (request : result json) (w : W) :
  translate_text request (init w)
  = match read_text request with
    | Raise e =>
        (Ok (failure (lit "Translation failed: " ++ exn_str e) 500),
         logged (init w) (lit "Translation error: " ++ exn_str e))
    | Ok s =>
        if negb (truthy s) then (Ok (failure blank 400), init w)
        else if (500 <? len s)%nat then (Ok (failure too_long 400), init w)
        else
          match translator_translate s (lit "en") (lit "kn") w with
          | (Raise e, w1) =>
              (Ok (failure (lit "Translation failed: " ++ exn_str e) 500),
               logged (after (init w) w1
                         (EvTranslate s (lit "en") (lit "kn") (Raise e)))
                      (lit "Translation error: " ++ exn_str e))
          | (Ok tr, w1) =>
              (Ok (translated_response s (text tr)),
               attempt_state (text tr) (lit "kn")
                 (os_path_join AUDIO_FOLDER (lit "output.mp3"))
                 (lit "Audio generation warning: ")
                 (after (init w) w1
                    (EvTranslate s (lit "en") (lit "kn") (Ok tr))))
          end
    end.
Proof.
  unfold translate_text, try_except. rewrite read_text_run.
  destruct (read_text request) as [s|e]; [|done].
  destruct (negb (truthy s)); [done|].
  destruct (500 <? len s)%nat; [done|].
  destruct (translator_translate s (lit "en") (lit "kn") w) as [[tr|e] w1] eqn:Htr.
  - erewrite bind_ok by (by apply external_eq).
    erewrite bind_ok by apply attempt_run. done.
  - erewrite bind_raise by (by apply external_eq). done.
Qed.

(** [voice_translate] on every request. *)
Lemma voice_translate_run (request : result json) (w : W) :
  voice_translate request (init w)
  = match read_text request with
    | Raise e =>
        (Ok (failure (lit "Voice translation failed: " ++ exn_str e) 500),
         logged (init w) (lit "Voice translation error: " ++ exn_str e))
    | Ok s =>
        if negb (truthy s) then (Ok (failure blank 400), init w)
        else if (500 <? len s)%nat then (Ok (failure too_long 400), init w)
        else
          match translator_translate s (lit "en") (lit "kn") w with
          | (Raise e, w1) =>
              (Ok (failure (lit "Voice translation failed: " ++ exn_str e) 500),
               logged (after (init w) w1
                         (EvTranslate s (lit "en") (lit "kn") (Raise e)))
                      (lit "Voice translation error: " ++ exn_str e))
          | (Ok tr, w1) =>
              (Ok (voice_response s (text tr)),
               attempt_state (text tr) (lit "kn")
                 (os_path_join AUDIO_FOLDER (lit "kannada_audio.mp3"))
                 (lit "Kannada audio generation warning: ")
                 (attempt_state s (lit "en")
                    (os_path_join AUDIO_FOLDER (lit "english_audio.mp3"))
                    (lit "English audio generation warning: ")
                    (after (init w) w1
                       (EvTranslate s (lit "en") (lit "kn") (Ok tr)))))
          end
    end.
Proof.
  unfold voice_translate, try_except. rewrite read_text_run.
  destruct (read_text request) as [s|e]; [|done].
  destruct (negb (truthy s)); [done|].
  destruct (500 <? len s)%nat; [done|].
  destruct (translator_translate s (lit "en") (lit "kn") w) as [[tr|e] w1] eqn:Htr.
  - erewrite bind_ok by (by apply external_eq).
    erewrite bind_ok by apply attempt_run.
    erewrite bind_ok by apply attempt_run. done.
  - erewrite bind_raise by (by apply external_eq). done.
Qed.

(** [translate_batch] on every request. *)
Lemma translate_batch_run (request : result json) (w : W) :
  translate_batch request (init w)
  = match read_texts request with
    | Raise e =>
        (Ok (failure (lit "Batch translation failed: " ++ exn_str e) 500),
         logged (init w) (lit "Batch translation error: " ++ exn_str e))
    | Ok (JList (v :: l)) =>
        match for_text_in translator_translate (v :: l) [] (init w) with
        | (Ok translations, st') => (Ok (batch_response translations), st')
        | (Raise e, st') =>
            (Ok (failure (lit "Batch translation failed: " ++ exn_str e) 500),
             logged st' (lit "Batch translation error: " ++ exn_str e))
        end
    | Ok _ => (Ok (failure no_list 400), init w)
    end.
Proof.
  destruct request as [data|e]; [|done].
  destruct data as [| | | | | |m]; try done.
  cbn [read_texts].
  destruct (m !! lit "texts") as [texts|] eqn:Hm; cbn [default from_option id].
  - destruct texts as [| | | | |[|v l]|];
      try (rewrite translate_batch_invalid;
           [done | right; eexists; split; [exact Hm|]; by right]).
    + rewrite translate_batch_invalid; [done|].
      right. eexists. split; [exact Hm|]. by left.
    + by apply translate_batch_loop.
  - by rewrite translate_batch_invalid by (by left).
Qed.

(** ** Fields of the answers *)

Lemma field_failure (msg : str) (code : Z) :
  field (failure msg code) "success" = Some (JBool false)
  /\ field (failure msg code) "error" = Some (JStr msg).
Proof. done. Qed.

Lemma field_translated (english kannada : str) :
  field (translated_response english kannada) "success" = Some (JBool true)
  /\ field (translated_response english kannada) "english" = Some (JStr english)
  /\ field (translated_response english kannada) "kannada" = Some (JStr kannada).
Proof. done. Qed.

Lemma field_voice (english kannada : str) :
  field (voice_response english kannada) "success" = Some (JBool true)
  /\ field (voice_response english kannada) "english" = Some (JStr english)
  /\ field (voice_response english kannada) "kannada" = Some (JStr kannada).
Proof. done. Qed.

Lemma field_batch (translations : list json) :
  field (batch_response translations) "success" = Some (JBool true)
  /\ field (batch_response translations) "translations"
     = Some (JList translations).
Proof. done. Qed.

(** ** One synthesis attempt, seen from the trace and the output *)

Lemma attempt_state_events txt lang path prefix (st : state W TTS) :
  exists evs out,
    calls (attempt_state txt lang path prefix st) = calls st ++ evs
    /\ stdout (attempt_state txt lang path prefix st) = stdout st ++ out
    /\ ((exists e, evs = [EvGTTS txt lang false (Raise e)]
                   /\ out = [prefix ++ exn_str e])
        \/ (exists tts e,
               evs = [EvGTTS txt lang false (Ok tts);
                      EvSave tts path (Raise e)]
               /\ out = [prefix ++ exn_str e])
        \/ (exists tts,
               evs = [EvGTTS txt lang false (Ok tts);
                      EvSave tts path (Ok tt)]
               /\ out = [])).
Proof.
  destruct (attempt_run txt lang path prefix st) as [_ Hatt].
  destruct Hatt as [e w1 _ | tts w1 e w2 _ _ | tts w1 w2 _ _];
    cbn [calls stdout logged after]; eexists _, _.
  - split; [done|]. split; [done|]. left. by exists e.
  - split; [by rewrite <- app_assoc|]. split; [done|].
    right; left. by exists tts, e.
  - split; [by rewrite <- app_assoc|]. split; [by rewrite app_nil_r|].
    right; right. by exists tts.
Qed.

(** ** Answers of the handlers *)

Lemma answered_failure said printed (w : W) (e : exn) (st : state W TTS) :
  answered said printed w
    (Ok (failure (said ++ exn_str e) 500), logged st (printed ++ exn_str e)).
Proof.
  eexists _, _. split; [done|]. right; right.
  split; [done|]. split; [done|]. exists (exn_str e).
  split; [done|]. cbn [stdout logged]. apply last_snoc.
Qed.

Lemma answered_refusal said printed (w : W) (msg : str) :
  answered (TTS:=TTS) said printed w (Ok (failure msg 400), init w).
Proof. eexists _, _. split; [done|]. right; left. done. Qed.

(** X1: a handler never lets an exception escape, whatever the request is
    and whatever the services do, and its answer has one of three shapes:
    status 200 with success true; status 400 with success false and
    nothing called or printed; status 500 with success false, an error
    message, and the same message printed last. *)
Theorem handlers_answer (request : result json) (w : W) :
  answered (lit "Translation failed: ") (lit "Translation error: ") w
    (translate_text request (init w))
  /\ answered (lit "Voice translation failed: ")
       (lit "Voice translation error: ") w
       (voice_translate request (init w))
  /\ answered (lit "Batch translation failed: ")
       (lit "Batch translation error: ") w
       (translate_batch request (init w)).
Proof.
  split; [|split].
  - rewrite translate_text_run.
    destruct (read_text request) as [s|e]; [|apply answered_failure].
    destruct (negb (truthy s)); [apply answered_refusal|].
    destruct (500 <? len s)%nat; [apply answered_refusal|].
    destruct (translator_translate _ _ _ w) as [[tr|e] w1];
      [|apply answered_failure].
    eexists _, _. split; [done|]. left. done.
  - rewrite voice_translate_run.
    destruct (read_text request) as [s|e]; [|apply answered_failure].
    destruct (negb (truthy s)); [apply answered_refusal|].
    destruct (500 <? len s)%nat; [apply answered_refusal|].
    destruct (translator_translate _ _ _ w) as [[tr|e] w1];
      [|apply answered_failure].
    eexists _, _. split; [done|]. left. done.
  - rewrite translate_batch_run.
    destruct (read_texts request) as [texts|e]; [|apply answered_failure].
    destruct texts as [| | | | |[|v l]|]; try apply answered_refusal.
    destruct (for_text_in _ _ _ _) as [[trs|e] st'];
      [|apply answered_failure].
    eexists _, _. split; [done|]. left. done.
Qed.

(** ** Requests that carry no usable text *)

(** X2: a body without the key ["text"] is treated as the empty text:
    [translate_text] and [voice_translate] answer 400 with the message
    for an empty text, and nothing is called or printed. *)
Theorem missing_text_rejected (m : gmap str json) (w : W) :
  m !! lit "text" = None ->
  translate_text (Ok (JDict m)) (init w) = (Ok (failure blank 400), init w)
  /\ voice_translate (Ok (JDict m)) (init w) = (Ok (failure blank 400), init w).
Proof.
  intros Hm. rewrite translate_text_run, voice_translate_run.
  cbn [read_text]. by rewrite Hm.
Qed.

(** X3: when the value under ["text"] is not a string (null, a boolean, a
    number, a list, an object), [strip] raises; both handlers answer 500,
    not 400, with the [AttributeError] message, print it, and call no
    service. *)
Theorem non_string_text_fails (m : gmap str json) (v : json) (w : W) :
  m !! lit "text" = Some v ->
  is_str v = false ->
  translate_text (Ok (JDict m)) (init w)
  = (Ok (failure (lit "Translation failed: '" ++ lit (type_name v)
                    ++ lit "' object has no attribute 'strip'") 500),
     {| world := w; calls := [];
        stdout := [lit "Translation error: '" ++ lit (type_name v)
                     ++ lit "' object has no attribute 'strip'"] |})
  /\ voice_translate (Ok (JDict m)) (init w)
     = (Ok (failure (lit "Voice translation failed: '" ++ lit (type_name v)
                       ++ lit "' object has no attribute 'strip'") 500),
        {| world := w; calls := [];
           stdout := [lit "Voice translation error: '" ++ lit (type_name v)
                        ++ lit "' object has no attribute 'strip'"] |}).
Proof.
  intros Hm Hv. rewrite translate_text_run, voice_translate_run.
  cbn [read_text]. rewrite Hm. cbn [default from_option id].
  by destruct v.
Qed.

(** X4: when the body is not a JSON object ([get_json] raised, or returned
    null, a list, a string, a number), each of the three handlers answers
    500 with [str(e)] after its own prefix, prints it, and calls no
    service. *)
Theorem body_not_object_fails (request : result json) (e : exn) (w : W) :
  request = Raise e
  \/ (exists data, request = Ok data /\ (forall m, data <> JDict m)
                   /\ e = AttributeError data "get") ->
  translate_text request (init w)
  = (Ok (failure (lit "Translation failed: " ++ exn_str e) 500),
     {| world := w; calls := [];
        stdout := [lit "Translation error: " ++ exn_str e] |})
  /\ voice_translate request (init w)
     = (Ok (failure (lit "Voice translation failed: " ++ exn_str e) 500),
        {| world := w; calls := [];
           stdout := [lit "Voice translation error: " ++ exn_str e] |})
  /\ translate_batch request (init w)
     = (Ok (failure (lit "Batch translation failed: " ++ exn_str e) 500),
        {| world := w; calls := [];
           stdout := [lit "Batch translation error: " ++ exn_str e] |}).
Proof.
  intros Hreq.
  assert (Hread : read_text request = Raise e /\ read_texts request = Raise e).
  { destruct Hreq as [-> | (data & -> & Hdata & ->)]; [done|].
    destruct data; try done. by destruct (Hdata m). }
  destruct Hread as [Htext Htexts].
  rewrite translate_text_run, voice_translate_run, translate_batch_run.
  by rewrite Htext, Htexts.
Qed.

(** ** The text that reaches the translator *)

Lemma read_text_stripped (request : result json) (s : str) :
  read_text request = Ok s -> exists t, s = strip t.
Proof.
  destruct request as [[| | | | | |m]|e]; try done. cbn [read_text].
  destruct (default _ _) as [| | | |t| |]; try done.
  intros [= <-]. by exists t.
Qed.

(** X5: white space around the text is invisible to [translate_text] and
    [voice_translate]: padding the text on either side with white space
    gives the same answer and the same calls, and the padding does not
    count towards the 500 characters. *)
Theorem padding_ignored (m1 m2 : gmap str json) (pre t post : str) (w : W) :
  m1 !! lit "text" = Some (JStr (pre ++ t ++ post)) ->
  m2 !! lit "text" = Some (JStr t) ->
  forallb isspace pre = true ->
  forallb isspace post = true ->
  translate_text (Ok (JDict m1)) (init w) = translate_text (Ok (JDict m2)) (init w)
  /\ voice_translate (Ok (JDict m1)) (init w)
     = voice_translate (Ok (JDict m2)) (init w).
Proof.
  intros Hm1 Hm2 Hpre Hpost.
  rewrite !translate_text_run, !voice_translate_run.
  cbn [read_text]. rewrite Hm1, Hm2. cbn [default from_option id].
  by rewrite strip_pad.
Qed.

(** X6: on every 200 answer of [translate_text] or [voice_translate] the
    field ["english"] is a string that is not empty, has at most 500
    characters, and neither starts nor ends with white space; it is the
    very text the translator was called with first. *)
Theorem english_field_shape (request : result json) (w : W)
    (resp : response) (st' : state W TTS) :
  (translate_text request (init w) = (Ok resp, st')
   \/ voice_translate request (init w) = (Ok resp, st')) ->
  status resp = 200%Z ->
  exists s,
    field resp "english" = Some (JStr s)
    /\ s <> [] /\ len s <= 500
    /\ (forall c, head s = Some c -> isspace c = false)
    /\ (forall c, last s = Some c -> isspace c = false)
    /\ head (texts_sent (calls st')) = Some s.
Proof.
  intros Hrun H200.
  rewrite translate_text_run, voice_translate_run in Hrun.
  destruct (read_text request) as [s|e] eqn:Hread;
    [|destruct Hrun as [Hrun | Hrun]; by simplify_eq].
  destruct (truthy s) eqn:Hne; cbn [negb] in Hrun;
    [|destruct Hrun as [Hrun | Hrun]; by simplify_eq].
  destruct (500 <? len s)%nat eqn:Hlen;
    [destruct Hrun as [Hrun | Hrun]; by simplify_eq|].
  apply Nat.ltb_ge in Hlen.
  destruct (read_text_stripped _ _ Hread) as (t & Hs).
  destruct (translator_translate _ _ _ w) as [[tr|e] w1];
    [|destruct Hrun as [Hrun | Hrun]; by simplify_eq].
  exists s.
  assert (Hshape : s <> [] /\ len s <= 500
                   /\ (forall c, head s = Some c -> isspace c = false)
                   /\ (forall c, last s = Some c -> isspace c = false)).
  { split; [by destruct s|]. split; [done|]. subst s. apply strip_ends. }
  destruct Hshape as (? & ? & ? & ?).
  destruct Hrun as [Hrun | Hrun]; simplify_eq.
  - split; [done|]. do 4 (split; [done|]).
    destruct (attempt_state_events (text tr) (lit "kn")
                (os_path_join AUDIO_FOLDER (lit "output.mp3"))
                (lit "Audio generation warning: ")
                (after (init w) w1
                   (EvTranslate (strip t) (lit "en") (lit "kn") (Ok tr))))
      as (evs & out & -> & _).
    done.
  - split; [done|]. do 4 (split; [done|]).
    destruct (attempt_state_events (text tr) (lit "kn")
                (os_path_join AUDIO_FOLDER (lit "kannada_audio.mp3"))
                (lit "Kannada audio generation warning: ")
                (attempt_state (strip t) (lit "en")
                   (os_path_join AUDIO_FOLDER (lit "english_audio.mp3"))
                   (lit "English audio generation warning: ")
                   (after (init w) w1
                      (EvTranslate (strip t) (lit "en") (lit "kn") (Ok tr)))))
      as (evs2 & out2 & -> & _).
    destruct (attempt_state_events (strip t) (lit "en")
                (os_path_join AUDIO_FOLDER (lit "english_audio.mp3"))
                (lit "English audio generation warning: ")
                (after (init w) w1
                   (EvTranslate (strip t) (lit "en") (lit "kn") (Ok tr))))
      as (evs1 & out1 & -> & _).
    done.
Qed.

(** ** Traces of the single-text handlers *)

(** Splits a goal about a run of [translate_text] along the equation of
    the handler, with the events of the attempt named. *)
Ltac attempt_cases H :=
  destruct H as [(?e & -> & ->) | [(?tts & ?e & -> & ->) | (?tts & -> & ->)]].

Ltac text_cases request w :=
  rewrite ?translate_text_run;
  let s := fresh "s" in
  let tr := fresh "tr" in
  let w1 := fresh "w" in
  let Hshape := fresh "Hshape" in
  destruct (read_text request) as [s|?e] eqn:?Hread;
  [ destruct (truthy s) eqn:?Hne; cbn [negb];
    [ destruct (500 <? len s)%nat eqn:?Hlen;
      [ | destruct (translator_translate s (lit "en") (lit "kn") w)
            as [[tr|?e] w1] eqn:?Htr;
          [ destruct (attempt_state_events (text tr) (lit "kn")
                        (os_path_join AUDIO_FOLDER (lit "output.mp3"))
                        (lit "Audio generation warning: ")
                        (after (init w) w1
                           (EvTranslate s (lit "en") (lit "kn") (Ok tr))))
              as (?evs & ?out & ?Hcalls & ?Hout & Hshape);
            cbn [fst snd]; rewrite ?Hcalls, ?Hout;
            attempt_cases Hshape
          | ] ]
    | ]
  | ];
  cbn [fst snd calls stdout after logged init app].

Ltac voice_cases request w :=
  rewrite ?voice_translate_run;
  let s := fresh "s" in
  let tr := fresh "tr" in
  let w1 := fresh "w" in
  let Hshape1 := fresh "Hshape" in
  let Hshape2 := fresh "Hshape" in
  destruct (read_text request) as [s|?e] eqn:?Hread;
  [ destruct (truthy s) eqn:?Hne; cbn [negb];
    [ destruct (500 <? len s)%nat eqn:?Hlen;
      [ | destruct (translator_translate s (lit "en") (lit "kn") w)
            as [[tr|?e] w1] eqn:?Htr;
          [ destruct (attempt_state_events (text tr) (lit "kn")
                        (os_path_join AUDIO_FOLDER (lit "kannada_audio.mp3"))
                        (lit "Kannada audio generation warning: ")
                        (attempt_state s (lit "en")
                           (os_path_join AUDIO_FOLDER (lit "english_audio.mp3"))
                           (lit "English audio generation warning: ")
                           (after (init w) w1
                              (EvTranslate s (lit "en") (lit "kn") (Ok tr)))))
              as (?evs & ?out & ?Hcalls & ?Hout & Hshape2);
            destruct (attempt_state_events s (lit "en")
                        (os_path_join AUDIO_FOLDER (lit "english_audio.mp3"))
                        (lit "English audio generation warning: ")
                        (after (init w) w1
                           (EvTranslate s (lit "en") (lit "kn") (Ok tr))))
              as (?evs & ?out & ?Hcalls & ?Hout & Hshape1);
            cbn [fst snd];
            repeat match goal with
                   | H : calls _ = _ |- _ => rewrite !H; clear H
                   | H : stdout _ = _ |- _ => rewrite !H; clear H
                   end;
            attempt_cases Hshape1; attempt_cases Hshape2
          | ] ]
    | ]
  | ];
  cbn [fst snd calls stdout after logged init app].

(** X7: no retries and no fan-out.  For every request [translate_text]
    makes at most three external calls and [voice_translate] at most
    five, and each calls the translator at most once. *)
Theorem text_call_bounds (request : result json) (w : W) :
  (length (calls (translate_text request (init w)).2) <= 3
   /\ length (texts_sent (calls (translate_text request (init w)).2)) <= 1)
  /\ (length (calls (voice_translate request (init w)).2) <= 5
      /\ length (texts_sent (calls (voice_translate request (init w)).2)) <= 1).
Proof.
  split.
  - text_cases request w; cbn; lia.
  - voice_cases request w; cbn; lia.
Qed.

(** ** The files the handlers write *)

Lemma match_slash {T} (c : codepoint) (X Y : T) :
  c <> 47%N -> match c with 47%N => X | _ => Y end = Y.
Proof.
  intros Hc. destruct c as [|p]; [done|].
  repeat (match goal with q : positive |- _ => destruct q end;
          try done).
Qed.

(** Joining a folder and a relative name puts the name after the folder,
    with at most a slash in between; what is in between depends on the
    folder only. *)
Lemma os_path_join_relative (a : str) :
  exists sep, forall b,
    head b <> Some 47%N -> os_path_join a b = a ++ sep ++ b.
Proof.
  assert (Hlast : exists sep, forall (b X Y Z : str),
             X = b -> Y = a ++ b -> Z = a ++ 47%N :: b ->
             match last a with
             | None => X
             | Some 47%N => Y
             | Some _ => Z
             end = a ++ sep ++ b).
  { destruct (last a) as [d|] eqn:Hd.
    - destruct (decide (d = 47%N)) as [-> | Hne].
      + exists []. by intros b X Y Z -> -> ->.
      + exists [47%N]. intros b X Y Z -> -> ->.
        by rewrite (match_slash d _ _ Hne).
    - exists []. intros b X Y Z -> -> ->. apply last_None in Hd. by subst a. }
  destruct Hlast as (sep & Hlast). exists sep. intros b Hb.
  unfold os_path_join.
  destruct b as [|c b]; [by apply Hlast|].
  rewrite match_slash by (intros ->; by apply Hb).
  by apply Hlast.
Qed.

(** Two relative names give the same path only when they are equal. *)
Lemma os_path_join_inj (a b1 b2 : str) :
  head b1 <> Some 47%N -> head b2 <> Some 47%N ->
  os_path_join a b1 = os_path_join a b2 -> b1 = b2.
Proof.
  intros Hb1 Hb2. destruct (os_path_join_relative a) as (sep & Hsep).
  rewrite !Hsep by done. intros H.
  by do 2 apply app_inv_head in H.
Qed.

(** X8: the only file [translate_text] ever saves to is [output.mp3]
    under [AUDIO_FOLDER]; [voice_translate] saves to [english_audio.mp3]
    and [kannada_audio.mp3] there and to nothing else.  The three paths
    are pairwise different and all start with [AUDIO_FOLDER]. *)
Theorem saved_files (request : result json) (w : W) :
  let output := os_path_join AUDIO_FOLDER (lit "output.mp3") in
  let english := os_path_join AUDIO_FOLDER (lit "english_audio.mp3") in
  let kannada := os_path_join AUDIO_FOLDER (lit "kannada_audio.mp3") in
  (forall p, p ∈ saved_paths (calls (translate_text request (init w)).2) ->
             p = output)
  /\ (forall p, p ∈ saved_paths (calls (voice_translate request (init w)).2) ->
                p = english \/ p = kannada)
  /\ output <> english /\ output <> kannada /\ english <> kannada
  /\ exists sep,
       output = AUDIO_FOLDER ++ sep ++ lit "output.mp3"
       /\ english = AUDIO_FOLDER ++ sep ++ lit "english_audio.mp3"
       /\ kannada = AUDIO_FOLDER ++ sep ++ lit "kannada_audio.mp3".
Proof.
  intros output english kannada. subst output english kannada.
  split; [|split].
  - intros p. text_cases request w; cbn [saved_paths omap];
      intros Hp; try (by apply elem_of_nil in Hp);
      by apply list_elem_of_singleton in Hp.
  - intros p. voice_cases request w; cbn [saved_paths omap];
      intros Hp; try (by apply elem_of_nil in Hp);
      repeat (apply elem_of_cons in Hp as [-> | Hp]; [by auto|]);
      by apply elem_of_nil in Hp.
  - split; [|split; [|split]];
      try (intros H; apply os_path_join_inj in H; done).
    destruct (os_path_join_relative AUDIO_FOLDER) as (sep & Hsep).
    exists sep. by rewrite !Hsep by done.
Qed.


(** ** Traces of [translate_batch] *)

(** One run of the loop, seen from the trace: only English-to-Kannada
    translator calls are added; the texts sent are the kept strings of the
    list, in order, up to where the loop stopped; at most the last call
    failed; and when the loop returns, the list it returns grew by one
    element per call. *)
Lemma for_text_in_calls (texts : list json) :
  forall (acc : list json) (st : state W TTS) r st',
    for_text_in translator_translate texts acc st = (r, st') ->
    exists evs,
      calls st' = calls st ++ evs
      /\ stdout st' = stdout st
      /\ Forall en_to_kn evs
      /\ texts_sent evs `prefix_of` List.filter kept (leading_strings texts)
      /\ match r with
         | Ok translations =>
             translations = acc ++ omap entry_of evs
             /\ List.filter failed evs = []
             /\ texts_sent evs = List.filter kept (leading_strings texts)
         | Raise e => length (List.filter failed evs) <= 1
         end.
Proof.
  induction texts as [|v texts IH]; intros acc st r st' Hrun.
  - cbn [for_text_in] in Hrun. unfold ret in Hrun. simplify_eq.
    exists []. rewrite !app_nil_r. by repeat split.
  - destruct v as [| | | |t| |];
      try (cbn [for_text_in] in Hrun; unfold raise in Hrun; simplify_eq;
           exists []; rewrite app_nil_r;
           split; [done|]; split; [done|]; split; [constructor|];
           split; [apply prefix_nil|]; cbn; lia).
    cbn [for_text_in leading_strings List.filter] in Hrun |- *.
    fold (kept t) in Hrun. destruct (kept t) eqn:Hkept.
    + destruct (translator_translate t (lit "en") (lit "kn") (world st))
        as [[tr|e] w1] eqn:Htr.
      * erewrite bind_ok in Hrun by (by apply external_eq).
        apply IH in Hrun as (evs & Hcalls & Hout & Hen & Hpre & Hr).
        exists (EvTranslate t (lit "en") (lit "kn") (Ok tr) :: evs).
        split; [rewrite Hcalls; cbn [calls after]; by rewrite <- app_assoc|].
        split; [done|].
        split; [constructor; [by eexists _, _|done]|].
        split; [by apply prefix_cons|].
        destruct r as [trs|e]; [|done].
        destruct Hr as (-> & Hfail & Hsent).
        split; [by rewrite <- app_assoc|]. split; [done|].
        by rewrite <- Hsent.
      * erewrite bind_raise in Hrun by (by apply external_eq).
        simplify_eq. eexists. split; [reflexivity|]. split; [done|].
        split; [constructor; [by eexists _, _|constructor]|].
        split; [by apply prefix_cons, prefix_nil|done].
    + apply IH in Hrun as (evs & Hcalls & Hout & Hen & Hpre & Hr).
      by exists evs.
Qed.

Lemma texts_sent_length (evs : list (event TTS)) :
  Forall en_to_kn evs -> length (texts_sent evs) = length evs.
Proof.
  induction 1 as [|ev evs (t & r & ->) _ IH]; [done|]. cbn. by rewrite <- IH.
Qed.

Lemma leading_strings_length (l : list json) :
  length (leading_strings l) <= length l.
Proof.
  induction l as [|v l IH]; [done|]. destruct v; cbn; lia.
Qed.

(** The run of the loop inside [translate_batch], for a request that
    reaches it; every other request leaves an empty trace. *)
Lemma translate_batch_trace (request : result json) (w : W) :
  exists l,
    (read_texts request = Ok (JList l) \/ l = [])
    /\ batch_traced l (translate_batch request (init w)).
Proof.
  rewrite translate_batch_run.
  assert (Hnone : forall (resp : response) (out : list str),
    status resp <> 200%Z ->
    exists l,
      (read_texts request = Ok (JList l) \/ l = [])
      /\ batch_traced (W:=W) (TTS:=TTS) l
           (Ok resp, {| world := w; calls := []; stdout := out |})).
  { intros resp out Hresp. exists []. split; [by right|].
    split; [constructor|]. split; [done|]. split; [cbn; lia|].
    intros resp0 [= <-] H200. done. }
  destruct (read_texts request) as [texts|e] eqn:Hread;
    [|by apply Hnone].
  destruct texts as [| | | | |[|v l]|]; try by apply (Hnone _ []).
  destruct (for_text_in _ _ _ _) as [[trs|e] st1] eqn:Hrun;
    apply for_text_in_calls in Hrun
      as (evs & Hcalls & Hout & Hen & Hpre & Hr);
    cbn [calls stdout init app] in Hcalls, Hout;
    exists (v :: l); (split; [by left|]);
    unfold batch_traced;
    cbn [fst snd calls stdout logged]; rewrite ?Hcalls, ?Hout;
    (split; [done|]); (split; [done|]).
  - destruct Hr as (-> & Hfail & Hsent). split; [rewrite Hfail; cbn; lia|].
    by intros resp [= <-] _.
  - split; [cbn; lia|]. by intros resp [= <-] H200.
Qed.

(** X10: [translate_batch] never synthesises speech: for every request,
    every entry of its trace is a translator call from English to
    Kannada, so no [gTTS] object is constructed and no file is saved. *)
Theorem batch_only_translates (request : result json) (w : W) :
  Forall en_to_kn (calls (translate_batch request (init w)).2)
  /\ saved_paths (calls (translate_batch request (init w)).2) = [].
Proof.
  destruct (translate_batch_trace request w) as (l & _ & Hen & _).
  split; [done|].
  induction Hen as [|ev evs (t & r & ->) _ IH]; done.
Qed.


(** X12: on a 200 answer of [translate_batch], [translations] has exactly
    one element per translator call, in the order of the calls, each
    pairing the text sent with the text received; no call failed and
    nothing was printed. *)
Theorem batch_translations_match_calls (request : result json) (w : W)
    (resp : response) (st' : state W TTS) :
  translate_batch request (init w) = (Ok resp, st') ->
  status resp = 200%Z ->
  field resp "translations" = Some (JList (omap entry_of (calls st')))
  /\ length (omap entry_of (calls st')) = length (calls st')
  /\ List.filter failed (calls st') = []
  /\ stdout st' = [].
Proof.
  intros Hrun H200.
  destruct (translate_batch_trace request w) as (l & _ & Hen & _ & _ & Hok).
  rewrite Hrun in Hen, Hok. cbn [fst snd] in Hen, Hok.
  destruct (Hok resp eq_refl H200) as (-> & Hfail & Hout & _).
  split; [done|]. split; [|done].
  clear -Hen Hfail. induction Hen as [|ev evs (t & r & ->) _ IH]; [done|].
  destruct r as [tr|e]; [|done]. cbn in Hfail |- *. by rewrite IH.
Qed.

(** ** Across the handlers *)


(** X14: the limit of 500 characters belongs to the single-text handlers
    only.  A text longer than that is refused by [translate_text] with
    400, while [translate_batch] hands the same text, as an entry and
    unstripped, to the translator and answers 200 with its translation. *)
Theorem batch_has_no_length_limit (m1 m2 : gmap str json) (t : str)
    (w w1 : W) (tr : Translated) :
  m1 !! lit "text" = Some (JStr t) ->
  m2 !! lit "texts" = Some (JList [JStr t]) ->
  500 < len (strip t) ->
  translator_translate t (lit "en") (lit "kn") w = (Ok tr, w1) ->
  translate_text (Ok (JDict m1)) (init w) = (Ok (failure too_long 400), init w)
  /\ translate_batch (Ok (JDict m2)) (init w)
     = (Ok (batch_response [entry t tr]),
        {| world := w1;
           calls := [EvTranslate t (lit "en") (lit "kn") (Ok tr)];
           stdout := [] |}).
Proof.
  intros Hm1 Hm2 Hlong Htr.
  assert (Hne : truthy (strip t) = true) by (apply long_is_truthy; lia).
  split.
  - rewrite translate_text_run. cbn [read_text]. rewrite Hm1.
    cbn [default from_option id]. rewrite Hne.
    apply Nat.ltb_lt in Hlong. by rewrite Hlong.
  - rewrite translate_batch_run. cbn [read_texts]. rewrite Hm2.
    cbn [default from_option id for_text_in]. rewrite Hne.
    erewrite bind_ok by (by apply external_eq). done.
Qed.


(** X16: the generic payloads of [page_not_found] and [internal_error]
    are never what one of the three handlers answers: a handler's answer
    always carries the field ["success"], which the two payloads lack,
    and its status is never 404. *)
Theorem error_pages_differ (request : result json) (w : W) (e : exn)
    (resp : response) :
  (translate_text request (init w)).1 = Ok resp
  \/ (voice_translate request (init w)).1 = Ok resp
  \/ (translate_batch request (init w)).1 = Ok resp ->
  resp <> page_not_found e /\ resp <> internal_error e
  /\ status resp <> 404%Z
  /\ is_Some (field resp "success")
  /\ field (page_not_found e) "success" = None
  /\ field (internal_error e) "success" = None.
Proof.
  intros Hrun.
  destruct (handlers_answer request w) as (Ht & Hv & Hb).
  assert (Hshape : is_Some (field resp "success") /\ status resp <> 404%Z).
  { destruct Hrun as [Hrun | [Hrun | Hrun]];
      [destruct Ht as (r & st & Heq & Hcase)
      |destruct Hv as (r & st & Heq & Hcase)
      |destruct Hb as (r & st & Heq & Hcase)];
      rewrite Heq in Hrun; cbn [fst] in Hrun; simplify_eq;
      destruct Hcase as [(-> & ->) | [(-> & -> & _) | (-> & -> & _)]];
      by split. }
  destruct Hshape as [Hsome H404].
  assert (Hnf : field (page_not_found e) "success" = None) by done.
  assert (Hie : field (internal_error e) "success" = None) by done.
  repeat split; try done.
  - intros ->. rewrite Hnf in Hsome. by destruct Hsome.
  - intros ->. rewrite Hie in Hsome. by destruct Hsome.
Qed.

(** X17: when the three services all return, [translate_text] makes
    exactly three calls, in the order translator, [gTTS] for the
    translated text in Kannada at normal speed, [save] to [output.mp3]
    under [AUDIO_FOLDER]; each call starts in the world the previous one
    left, nothing is printed, and the answer is the 200 response. *)
Theorem full_success (m : gmap str json) (t : str) (w w1 w2 w3 : W)
    (tr : Translated) (tts : TTS) :
  m !! lit "text" = Some (JStr t) ->
  valid_text t ->
  translator_translate (strip t) (lit "en") (lit "kn") w = (Ok tr, w1) ->
  gTTS (text tr) (lit "kn") false w1 = (Ok tts, w2) ->
  gTTS_save tts (os_path_join AUDIO_FOLDER (lit "output.mp3")) w2 = (Ok tt, w3) ->
  translate_text (Ok (JDict m)) (init w)
  = (Ok (translated_response (strip t) (text tr)),
     {| world := w3;
        calls := [EvTranslate (strip t) (lit "en") (lit "kn") (Ok tr);
                  EvGTTS (text tr) (lit "kn") false (Ok tts);
                  EvSave tts (os_path_join AUDIO_FOLDER (lit "output.mp3"))
                    (Ok tt)];
        stdout := [] |}).
Proof.
  intros Hm [Hne Hlen] Htr Hnew Hsave.
  rewrite translate_text_run. cbn [read_text]. rewrite Hm.
  cbn [default from_option id]. rewrite Hne.
  apply Nat.ltb_ge in Hlen. rewrite Hlen. cbn [negb]. rewrite Htr.
  f_equal. unfold attempt_state.
  set (path := os_path_join AUDIO_FOLDER (lit "output.mp3")) in *.
  set (st1 := after (init w) w1 _).
  assert (Hatt : attempt (text tr) (lit "kn") path
                   (lit "Audio generation warning: ") st1
                 = (Ok tt,
                    after (after st1 w2 (EvGTTS (text tr) (lit "kn") false (Ok tts)))
                      w3 (EvSave tts path (Ok tt)))).
  { unfold attempt. erewrite try_except_ok; [reflexivity|].
    erewrite bind_ok by (by apply external_eq).
    by apply external_eq. }
  by rewrite Hatt.
Qed.

(** X18: [translate_batch] stops at the first failure: a translator call
    that raised is the last entry of the trace, so the entries after the
    failing one are never sent. *)
Theorem batch_stops_at_failure (request : result json) (w : W)
    (before after_ : list (event TTS)) (ev : event TTS) :
  calls (translate_batch request (init w)).2 = before ++ ev :: after_ ->
  failed ev = true ->
  after_ = [].
Proof.
  rewrite translate_batch_run. intros Hcalls Hfailed.
  assert (Hok : forall evs0 : list (event TTS),
             Forall translated_ok evs0 -> ev ∈ evs0 -> False).
  { intros evs0 Hevs0 Hin. rewrite Forall_forall in Hevs0.
    destruct (Hevs0 ev Hin) as (? & ? & ? & ? & ->). done. }
  destruct (read_texts request) as [texts|e];
    [|by destruct before].
  destruct texts as [| | | | |[|v l]|]; try by destruct before.
  destruct (for_text_in _ _ _ _) as [[trs|e] st1] eqn:Hrun;
    apply for_text_in_trace in Hrun as (evs & Hevs & _ & Hr);
    cbn [fst snd calls logged init app] in Hcalls, Hevs;
    rewrite Hevs in Hcalls; clear Hevs; subst evs.
  - destruct Hr as [Hall _]. destruct (Hok _ Hall). apply elem_of_app. right. apply list_elem_of_here.
  - destruct Hr as (evs0 & Hall & [(<- & _) | (t & _ & Heq)]).
    + destruct (Hok _ Hall). apply elem_of_app. right. apply list_elem_of_here.
    + destruct after_ as [|x after_ _] using rev_ind; [done|].
      rewrite app_comm_cons, app_assoc in Heq.
      apply app_inj_tail in Heq as [<- _].
      destruct (Hok _ Hall). apply elem_of_app. right. apply list_elem_of_here.
Qed.

End Coverage.

(** ** The further properties at concrete inputs *)

(** The body [{"lang": "kn"}] has no text. *)
Lemma missing_text_rejected_witness :
  Demo.run_text (lit "kn") (Ok (JDict {[ lit "lang" := JStr (lit "kn") ]})) (init 0)
  = (Ok (failure blank 400), init 0)
  /\ Demo.run_voice (lit "kn")
       (Ok (JDict {[ lit "lang" := JStr (lit "kn") ]})) (init 0)
     = (Ok (failure blank 400), init 0).
Proof.
  apply (missing_text_rejected Demo.translator (Demo.synth (lit "kn"))
           Demo.store Demo.folder {[ lit "lang" := JStr (lit "kn") ]} 0).
  reflexivity.
Defined.

(** The body [{"text": 5}]. *)
Lemma non_string_text_fails_witness :
  Demo.run_text (lit "kn") (Ok (JDict (Demo.text_body_of (JInt 5)))) (init 0)
  = (Ok (failure (lit "Translation failed: 'int' object has no attribute 'strip'")
           500),
     {| world := 0; calls := [];
        stdout := [lit "Translation error: 'int' object has no attribute 'strip'"] |})
  /\ Demo.run_voice (lit "kn") (Ok (JDict (Demo.text_body_of (JInt 5)))) (init 0)
     = (Ok (failure
              (lit "Voice translation failed: 'int' object has no attribute 'strip'")
              500),
        {| world := 0; calls := [];
           stdout := [lit "Voice translation error: 'int' object has no attribute 'strip'"] |}).
Proof.
  apply (non_string_text_fails Demo.translator (Demo.synth (lit "kn"))
           Demo.store Demo.folder (Demo.text_body_of (JInt 5)) (JInt 5) 0);
    reflexivity.
Defined.

(** The body [["Hello"]]: a list, not an object. *)
Lemma body_not_object_fails_witness :
  Demo.run_text (lit "kn") (Ok (JList [JStr (lit "Hello")])) (init 0)
  = (Ok (failure (lit "Translation failed: 'list' object has no attribute 'get'")
           500),
     {| world := 0; calls := [];
        stdout := [lit "Translation error: 'list' object has no attribute 'get'"] |})
  /\ Demo.run_voice (lit "kn") (Ok (JList [JStr (lit "Hello")])) (init 0)
     = (Ok (failure
              (lit "Voice translation failed: 'list' object has no attribute 'get'")
              500),
        {| world := 0; calls := [];
           stdout := [lit "Voice translation error: 'list' object has no attribute 'get'"] |})
  /\ Demo.run_batch (Ok (JList [JStr (lit "Hello")])) (init 0)
     = (Ok (failure
              (lit "Batch translation failed: 'list' object has no attribute 'get'")
              500),
        {| world := 0; calls := [];
           stdout := [lit "Batch translation error: 'list' object has no attribute 'get'"] |}).
Proof.
  apply (body_not_object_fails Demo.translator (Demo.synth (lit "kn"))
           Demo.store Demo.folder (Ok (JList [JStr (lit "Hello")]))
           (AttributeError (JList [JStr (lit "Hello")]) "get") 0).
  right. exists (JList [JStr (lit "Hello")]).
  split; [reflexivity|]. split; [discriminate|reflexivity].
Defined.

(** " Hello \n" against "Hello". *)
Lemma padding_ignored_witness :
  Demo.run_text (lit "kn")
    (Ok (JDict (Demo.text_body (lit " " ++ lit "Hello" ++ [32; 10]%N)))) (init 0)
  = Demo.run_text (lit "kn") (Ok (JDict (Demo.text_body (lit "Hello")))) (init 0)
  /\ Demo.run_voice (lit "kn")
       (Ok (JDict (Demo.text_body (lit " " ++ lit "Hello" ++ [32; 10]%N)))) (init 0)
     = Demo.run_voice (lit "kn") (Ok (JDict (Demo.text_body (lit "Hello")))) (init 0).
Proof.
  apply (padding_ignored Demo.translator (Demo.synth (lit "kn")) Demo.store
           Demo.folder
           (Demo.text_body (lit " " ++ lit "Hello" ++ [32; 10]%N))
           (Demo.text_body (lit "Hello"))
           (lit " ") (lit "Hello") [32; 10]%N 0); reflexivity.
Defined.

(** The 200 answer to " Hello ". *)
Lemma english_field_shape_witness :
  exists s,
    field (translated_response (lit "Hello") (lit "kn:Hello")) "english"
    = Some (JStr s)
    /\ s <> [] /\ len s <= 500
    /\ (forall c, head s = Some c -> isspace c = false)
    /\ (forall c, last s = Some c -> isspace c = false)
    /\ head (texts_sent
               (calls (Demo.run_text (lit "en")
                         (Ok (JDict (Demo.text_body (lit " Hello ")))) (init 0)).2))
       = Some s.
Proof.
  apply (english_field_shape Demo.translator (Demo.synth (lit "en")) Demo.store
           Demo.folder (Ok (JDict (Demo.text_body (lit " Hello ")))) 0
           (translated_response (lit "Hello") (lit "kn:Hello"))
           (Demo.run_text (lit "en")
              (Ok (JDict (Demo.text_body (lit " Hello ")))) (init 0)).2).
  - left. reflexivity.
  - reflexivity.
Defined.

(** The files written for "Hello" by a synthesiser that refuses nothing. *)
Lemma saved_files_witness :
  lit "/srv/translator/static/output.mp3" = os_path_join Demo.folder (lit "output.mp3")
  /\ (lit "/srv/translator/static/kannada_audio.mp3"
      = os_path_join Demo.folder (lit "english_audio.mp3")
      \/ lit "/srv/translator/static/kannada_audio.mp3"
         = os_path_join Demo.folder (lit "kannada_audio.mp3")).
Proof.
  split.
  - apply (proj1 (saved_files Demo.translator (Demo.synth (lit "xx")) Demo.store
                    Demo.folder (Ok (JDict (Demo.text_body (lit "Hello")))) 0)).
    vm_compute. apply list_elem_of_here.
  - apply (proj1 (proj2 (saved_files Demo.translator (Demo.synth (lit "xx"))
                           Demo.store Demo.folder
                           (Ok (JDict (Demo.text_body (lit "Hello")))) 0))).
    vm_compute. apply list_elem_of_further, list_elem_of_here.
Defined.



(** The batch [" a ", "", "b"]. *)
Lemma batch_translations_match_calls_witness :
  let run :=
    Demo.run_batch
      (Ok (JDict (Demo.texts_body
                    (JList [JStr (lit " a "); JStr (lit ""); JStr (lit "b")]))))
      (init 0) in
  field (batch_response [entry (lit " a ") {| text := lit "kn: a " |};
                         entry (lit "b") {| text := lit "kn:b" |}])
    "translations"
  = Some (JList (omap entry_of (calls run.2)))
  /\ length (omap entry_of (calls run.2)) = length (calls run.2)
  /\ List.filter failed (calls run.2) = []
  /\ stdout run.2 = [].
Proof.
  apply (batch_translations_match_calls Demo.translator
           (Ok (JDict (Demo.texts_body
                         (JList [JStr (lit " a "); JStr (lit ""); JStr (lit "b")]))))
           0); reflexivity.
Defined.

(** 501 letters, alone and as the one entry of a batch. *)
Lemma batch_has_no_length_limit_witness :
  Demo.run_text (lit "kn") (Ok (JDict (Demo.text_body Demo.a501))) (init 0)
  = (Ok (failure too_long 400), init 0)
  /\ Demo.run_batch (Ok (JDict (Demo.texts_body (JList [JStr Demo.a501])))) (init 0)
     = (Ok (batch_response [entry Demo.a501 {| text := lit "kn:" ++ Demo.a501 |}]),
        {| world := 1;
           calls := [EvTranslate Demo.a501 (lit "en") (lit "kn")
                       (Ok {| text := lit "kn:" ++ Demo.a501 |})];
           stdout := [] |}).
Proof.
  apply (batch_has_no_length_limit Demo.translator (Demo.synth (lit "kn"))
           Demo.store Demo.folder (Demo.text_body Demo.a501)
           (Demo.texts_body (JList [JStr Demo.a501])) Demo.a501 0 1
           {| text := lit "kn:" ++ Demo.a501 |}).
  - reflexivity.
  - reflexivity.
  - vm_compute. lia.
  - reflexivity.
Defined.

(** The 500 answer for "boom" against the two generic payloads. *)
Lemma error_pages_differ_witness :
  let resp := failure (lit "Translation failed: service unavailable") 500 in
  resp <> page_not_found Demo.unavailable
  /\ resp <> internal_error Demo.unavailable
  /\ status resp <> 404%Z
  /\ is_Some (field resp "success")
  /\ field (page_not_found Demo.unavailable) "success" = None
  /\ field (internal_error Demo.unavailable) "success" = None.
Proof.
  apply (error_pages_differ Demo.translator (Demo.synth (lit "kn")) Demo.store
           Demo.folder (Ok (JDict (Demo.text_body (lit "boom")))) 0).
  left. reflexivity.
Defined.

(** "Hello" with all three services returning. *)
Lemma full_success_witness :
  Demo.run_text (lit "xx") (Ok (JDict (Demo.text_body (lit "Hello")))) (init 0)
  = (Ok (translated_response (lit "Hello") (lit "kn:Hello")),
     {| world := 3;
        calls := [EvTranslate (lit "Hello") (lit "en") (lit "kn")
                    (Ok {| text := lit "kn:Hello" |});
                  EvGTTS (lit "kn:Hello") (lit "kn") false
                    (Ok (lit "kn:Hello", lit "kn"));
                  EvSave (lit "kn:Hello", lit "kn")
                    (os_path_join Demo.folder (lit "output.mp3")) (Ok tt)];
        stdout := [] |}).
Proof.
  apply (full_success Demo.translator (Demo.synth (lit "xx")) Demo.store
           Demo.folder (Demo.text_body (lit "Hello")) (lit "Hello") 0 1 2 3
           {| text := lit "kn:Hello" |} (lit "kn:Hello", lit "kn")).
  - reflexivity.
  - split; [reflexivity | vm_compute; lia].
  - reflexivity.
  - reflexivity.
  - reflexivity.
Defined.

(** The batch ["Hello", "boom", "World"]: "World" is never sent. *)
Lemma batch_stops_at_failure_witness :
  ([] : list (event Demo.speech)) = [].
Proof.
  apply (batch_stops_at_failure Demo.translator
           (Ok (JDict (Demo.texts_body
                         (JList [JStr (lit "Hello"); JStr (lit "boom");
                                 JStr (lit "World")]))))
           0
           [EvTranslate (lit "Hello") (lit "en") (lit "kn")
              (Ok {| text := lit "kn:Hello" |})]
           []
           (EvTranslate (lit "boom") (lit "en") (lit "kn")
              (Raise Demo.unavailable)));
    reflexivity.
Defined.
